(** * ml-converter: the column-normalization engine of [src/converters.py]

    A shallow embedding of the module's functions and of the monetary
    column test of [src/app.py], followed by the properties proved of
    them.

    Python strings are sequences of Unicode code points and are modelled
    as lists of code points.  The functions of the Python runtime that
    consult the Unicode Character Database ([unicodedata.normalize],
    [unicodedata.combining], [str.lower], [str.strip], the digit and
    white-space tables of [float()]) are an interface, class [Unicode];
    every general theorem holds for every implementation of it, and the
    laws a theorem needs are stated in class [UnicodeLaws].  Closed
    examples are evaluated with [ucd], a finite excerpt of the database.

    Floating-point numbers are the binary64 values of [SpecFloat]; the
    conversions [float(str)], [float(int)] and [repr(float)] are written
    out over integers and are correctly rounded. *)

From Stdlib Require Import Ascii String.
From Stdlib Require Import List Bool NArith ZArith Lia.
From Stdlib Require Import SpecFloat.
Import ListNotations.

Set Implicit Arguments.

(* ================================================================= *)
(** ** Code points and Python strings *)

(** A code point is a natural number, a string a list of them. *)
Abbreviation codepoint := N (only parsing).
Abbreviation pystr := (list N) (only parsing).

Definition ord (a : ascii) : codepoint := N_of_ascii a.

(** [utf8_decode] reads the code points of a UTF-8 byte sequence; [py]
    turns a string literal of this file into the Python string it
    denotes. *)
Fixpoint utf8_decode (bs : list N) : pystr :=
  let cont b := N.land b 63 in
  match bs with
  | [] => []
  | b0 :: r0 =>
    if (b0 <? 128)%N then b0 :: utf8_decode r0
    else if (b0 <? 224)%N then
      match r0 with
      | b1 :: r1 => (N.shiftl (N.land b0 31) 6 + cont b1)%N :: utf8_decode r1
      | _ => []
      end
    else if (b0 <? 240)%N then
      match r0 with
      | b1 :: b2 :: r2 =>
        (N.shiftl (N.land b0 15) 12 + N.shiftl (cont b1) 6 + cont b2)%N
          :: utf8_decode r2
      | _ => []
      end
    else
      match r0 with
      | b1 :: b2 :: b3 :: r3 =>
        (N.shiftl (N.land b0 7) 18 + N.shiftl (cont b1) 12
         + N.shiftl (cont b2) 6 + cont b3)%N :: utf8_decode r3
      | _ => []
      end
  end.

Definition py (s : string) : pystr :=
  utf8_decode (map N_of_ascii (list_ascii_of_string s)).

Definition pystr_eqb (a b : pystr) : bool :=
  if list_eq_dec N.eq_dec a b then true else false.

(* ================================================================= *)
(** ** The string methods the module calls *)

Module Str.

(** [s.startswith(p)] *)
Fixpoint startswith (s p : pystr) : bool :=
  match p, s with
  | [], _ => true
  | _ :: _, [] => false
  | c :: p', d :: s' => (c =? d)%N && startswith s' p'
  end.

(** [s.endswith(p)] *)
Definition endswith (s p : pystr) : bool := startswith (rev s) (rev p).

(** [p in s] *)
Fixpoint contains (s p : pystr) : bool :=
  startswith s p ||
  match s with
  | [] => false
  | _ :: s' => contains s' p
  end.

(** [s[1:]], [s[:-1]] and [s[1:-1]] *)
Definition drop_first (s : pystr) : pystr := tl s.
Definition drop_last (s : pystr) : pystr := removelast s.
Definition slice_1_m1 (s : pystr) : pystr := removelast (tl s).

(** [s.replace(old, new)] for a one-character [old]. *)
Definition replace (old : codepoint) (new : pystr) (s : pystr) : pystr :=
  flat_map (fun c => if (c =? old)%N then new else [c]) s.

(** [s.count(c)] for a one-character [c]. *)
Definition count (c : codepoint) (s : pystr) : nat :=
  List.length (filter (N.eqb c) s).

(** [s.rfind(c)] for a one-character [c]: the highest index of [c], or
    [-1]. *)
Fixpoint rfind_from (i : Z) (c : codepoint) (s : pystr) : Z :=
  match s with
  | [] => (-1)%Z
  | d :: s' =>
    let r := rfind_from (i + 1)%Z c s' in
    if (0 <=? r)%Z then r else if (d =? c)%N then i else (-1)%Z
  end.
Definition rfind (c : codepoint) (s : pystr) : Z := rfind_from 0%Z c s.

(** [s.split(sep)] for a one-character [sep]; never the empty list. *)
Fixpoint split (sep : codepoint) (s : pystr) : list pystr :=
  match s with
  | [] => [[]]
  | c :: s' =>
    match split sep s' with
    | [] => [[c]]
    | hd :: tl => if (c =? sep)%N then [] :: hd :: tl else (c :: hd) :: tl
    end
  end.

(** [string.join(parts)] with the empty separator. *)
Definition join (parts : list pystr) : pystr := List.concat parts.

(** [s.strip()] removes leading and trailing white space, as decided by
    [isspace]. *)
Fixpoint lstrip (isspace : codepoint -> bool) (s : pystr) : pystr :=
  match s with
  | [] => []
  | c :: s' => if isspace c then lstrip isspace s' else s
  end.
Definition rstrip (isspace : codepoint -> bool) (s : pystr) : pystr :=
  rev (lstrip isspace (rev s)).
Definition strip (isspace : codepoint -> bool) (s : pystr) : pystr :=
  rstrip isspace (lstrip isspace s).

End Str.

(* ================================================================= *)
(** ** Exceptions *)

(** The exceptions that escape the module's functions.  [ValueError] and
    [TypeError] of [float(str)] are caught where they arise and are
    modelled by [option]. *)
Inductive exn := OverflowError | KeyError.

Inductive result (A : Type) :=
| Ok (a : A)
| Raise (e : exn).
Arguments Ok {A} a.
Arguments Raise {A} e.

Definition bind {A B} (r : result A) (k : A -> result B) : result B :=
  match r with
  | Ok a => k a
  | Raise e => Raise e
  end.

Declare Scope result_scope.
Delimit Scope result_scope with result.
Notation "x <- r ;; k" := (bind r (fun x => k))
  (at level 61, r at next level, right associativity) : result_scope.

Fixpoint mapM {A B} (f : A -> result B) (l : list A) : result (list B) :=
  match l with
  | [] => Ok []
  | a :: l' => (b <- f a ;; bs <- mapM f l' ;; Ok (b :: bs))%result
  end.

(* ================================================================= *)
(** ** The Unicode interface of the runtime *)

(** What the module asks of the Unicode Character Database, through
    [unicodedata] and through the [str] and [float] built-ins. *)
Class Unicode := {
  (** [unicodedata.normalize("NFKD", s)] *)
  nfkd : pystr -> pystr;
  (** [unicodedata.normalize("NFKC", s)] *)
  nfkc : pystr -> pystr;
  (** [unicodedata.combining(c)], the canonical combining class *)
  combining : codepoint -> N;
  (** [s.lower()] *)
  lower : pystr -> pystr;
  (** [c.isspace()], which [str.strip] and [float] consult *)
  isspace : codepoint -> bool;
  (** the decimal digit value of [c], which [float] consults *)
  decimal : codepoint -> option N
}.

Definition is_ascii (c : codepoint) : Prop := (c < 128)%N.

(** White space among the ASCII characters, for [str.isspace]. *)
Definition ascii_isspace (c : codepoint) : bool :=
  ((9 <=? c) && (c <=? 13) || (28 <=? c) && (c <=? 32))%N.

(** Lowercasing of one ASCII character. *)
Definition ascii_lower (c : codepoint) : codepoint :=
  if ((65 <=? c) && (c <=? 90))%N then (c + 32)%N else c.

(** [starter c]: [not unicodedata.combining(c)]. *)
Definition starter `{Unicode} (c : codepoint) : bool := (combining c =? 0)%N.

(** Facts of the database that hold of every version of Unicode: ASCII
    text is inert under NFKD and lowercases character by character, and a
    normalized string stripped of its combining marks is normalized. *)
Class UnicodeLaws (U : Unicode) : Prop := {
  nfkd_ascii : forall s, Forall is_ascii s -> nfkd s = s;
  combining_ascii : forall c, is_ascii c -> combining c = 0%N;
  lower_ascii : forall s, Forall is_ascii s -> lower s = map ascii_lower s;
  isspace_ascii : forall c, is_ascii c -> isspace c = ascii_isspace c;
  nfkd_starters :
    forall s, nfkd (filter starter (nfkd s)) = filter starter (nfkd s)
}.

(* ================================================================= *)
(** ** Python floats *)

Module Float.

(** A Python [float] is an IEEE 754 binary64 number. *)
Definition prec : Z := 53.
Definition emax : Z := 1024.
Definition float := spec_float.

Definition nan : float := S754_nan.
Definition inf : float := S754_infinity false.
Definition neg (x : float) : float := SFopp x.

Definition isnan (x : float) : bool :=
  match x with S754_nan => true | _ => false end.
Definition isfinite (x : float) : bool :=
  match x with S754_zero _ | S754_finite _ _ _ => true | _ => false end.

Definition eq_dec (x y : float) : {x = y} + {x <> y}.
Proof.
  decide equality; try apply Bool.bool_dec;
    try apply Z.eq_dec; apply Pos.eq_dec.
Defined.

(** The binary64 number nearest to [(-1)^s * m * 10^e], ties to even:
    the value [float()] gives a decimal literal.  A non-negative
    exponent is an integer to round; a negative one is a quotient of
    integers, rounded once. *)
Definition of_decimal (s : bool) (m : Z) (e : Z) : float :=
  match m with
  | Zpos p =>
    if (0 <=? e)%Z then
      binary_normalize prec emax (if s then Z.opp (m * 10 ^ e) else m * 10 ^ e)%Z 0 s
    else
      SFdiv prec emax (S754_finite s p 0)
            (S754_finite false (Z.to_pos (10 ^ (- e))) 0)
  | _ => S754_zero s
  end.

(** [float(n)] for an [int]: correctly rounded, [OverflowError] when the
    rounded value is out of range. *)
Definition of_int (z : Z) : result float :=
  match binary_normalize prec emax z 0 false with
  | S754_infinity _ => Raise OverflowError
  | f => Ok f
  end.


(** *** [float(s)] for a string

    The string is first brought to ASCII: a non-ASCII white-space
    character becomes a space, a non-ASCII decimal digit its ASCII
    digit, and any other non-ASCII character ends the string with a
    character no number contains.  Leading and trailing ASCII white
    space is dropped, underscores are accepted between digits only,
    and what is left must be, as a whole, an optional sign followed by
    [inf], [infinity] or [nan] in any case, or by a decimal number with
    an optional exponent. *)

Definition is_digit (c : codepoint) : bool := ((48 <=? c) && (c <=? 57))%N.

(** White space of the C locale, which the parser strips. *)
Definition c_isspace (c : codepoint) : bool :=
  ((9 <=? c) && (c <=? 13) || (c =? 32))%N.

Fixpoint to_ascii `{Unicode} (s : pystr) : pystr :=
  match s with
  | [] => []
  | c :: r =>
    if (c <? 127)%N then c :: to_ascii r
    else if isspace c then 32%N :: to_ascii r
    else match decimal c with
         | Some d => (48 + d)%N :: to_ascii r
         | None => [63%N]
         end
  end.

(** [prev] is the character just read, [0] at the start. *)
Fixpoint drop_underscores (prev : codepoint) (s : pystr) : option pystr :=
  match s with
  | [] => if (prev =? 95)%N then None else Some []
  | c :: r =>
    if (c =? 95)%N then
      if is_digit prev then drop_underscores c r else None
    else if (prev =? 95)%N && negb (is_digit c) then None
    else option_map (cons c) (drop_underscores c r)
  end.

Fixpoint take_digits (s : pystr) : list Z * pystr :=
  match s with
  | [] => ([], [])
  | c :: r =>
    if is_digit c then
      let '(ds, rest) := take_digits r in (Z.of_N (c - 48) :: ds, rest)
    else ([], s)
  end.

Definition digits_value (ds : list Z) : Z :=
  fold_left (fun acc d => (10 * acc + d)%Z) ds 0%Z.

(** [sign] of a number or of an exponent: the flag is set for [-]. *)
Definition take_sign (s : pystr) : bool * pystr :=
  match s with
  | 45%N :: r => (true, r)
  | 43%N :: r => (false, r)
  | _ => (false, s)
  end.

(** The exponent part, which must reach the end of the string. *)
Definition parse_exponent (s : pystr) : option Z :=
  match s with
  | [] => Some 0%Z
  | c :: r =>
    if ((c =? 101) || (c =? 69))%N then
      let '(sg, r1) := take_sign r in
      match take_digits r1 with
      | ((_ :: _) as ds, []) =>
        Some (if sg then (- digits_value ds)%Z else digits_value ds)
      | _ => None
      end
    else None
  end.

Definition parse_number (s : bool) (t : pystr) : option float :=
  let '(ip, r1) := take_digits t in
  let '(fp, r2) :=
    match r1 with
    | 46%N :: r => take_digits r
    | _ => ([], r1)
    end in
  match ip ++ fp with
  | [] => None
  | ds =>
    match parse_exponent r2 with
    | Some e =>
      Some (of_decimal s (digits_value ds) (e - Z.of_nat (List.length fp)))
    | None => None
    end
  end.

Definition parse_inf_or_nan (s : bool) (t : pystr) : option float :=
  let l := map ascii_lower t in
  if pystr_eqb l (py "inf") || pystr_eqb l (py "infinity")
  then Some (S754_infinity s)
  else if pystr_eqb l (py "nan") then Some S754_nan
  else None.

Definition of_str `{Unicode} (text : pystr) : option float :=
  let a := Str.strip c_isspace (to_ascii text) in
  match drop_underscores 0%N a with
  | None => None
  | Some b =>
    let '(s, t) := take_sign b in
    match parse_number s t with
    | Some f => Some f
    | None => parse_inf_or_nan s t
    end
  end.


(** *** [repr(x)]: the shortest decimal string that reads back as [x]

    [digits_of n] are the decimal digits of a non-negative integer. *)

Fixpoint digits_fuel (fuel : nat) (n : Z) (acc : pystr) : pystr :=
  match fuel with
  | O => acc
  | S fuel' =>
    let acc' := (48 + Z.to_N (n mod 10))%N :: acc in
    if (n <? 10)%Z then acc' else digits_fuel fuel' (n / 10)%Z acc'
  end.

Definition digits_of (n : Z) : pystr :=
  digits_fuel (S (Z.to_nat (Z.log2 n))) n [].

(** [str(n)] for an [int]. *)
Definition str_of_int (z : Z) : pystr :=
  if (z <? 0)%Z then 45%N :: digits_of (- z) else digits_of z.

(** [num / den < 10 ^ k], for positive [num] and [den]. *)
Definition below_pow10 (num den k : Z) : bool :=
  if (0 <=? k)%Z then (num <? den * 10 ^ k)%Z
  else (num * 10 ^ (- k) <? den)%Z.

(** The position of the decimal point: the least [k] such that
    [num / den < 10 ^ k], searched from an estimate by logarithms. *)
Definition decimal_point (num den : Z) : Z :=
  let est := ((Z.log2 num - Z.log2 den) * 1233 / 4096)%Z in
  if below_pow10 num den (est - 1) then (est - 1)%Z
  else if below_pow10 num den est then est
  else if below_pow10 num den (est + 1) then (est + 1)%Z
  else (est + 2)%Z.

(** The decimal with [n] significant digits, as an integer [d] standing
    for [d * 10 ^ (k - n)], that is nearest to [num / den] among those
    that read back as [x]; none if neither neighbour does. *)
Definition candidate (x : float) (num den k : Z) (n : Z) : option Z :=
  let e := (k - n)%Z in
  let '(a, b) :=
    if (0 <=? e)%Z then (num, den * 10 ^ e)%Z else (num * 10 ^ (- e), den)%Z in
  let lo := (a / b)%Z in
  let r := (a mod b)%Z in
  let hi := (lo + 1)%Z in
  let back d := if eq_dec (of_decimal false d e) x then true else false in
  if (r =? 0)%Z then (if back lo then Some lo else None)
  else
    match back lo, back hi with
    | true, true =>
      match (2 * r ?= b)%Z with
      | Lt => Some lo
      | Gt => Some hi
      | Eq => if Z.even lo then Some lo else Some hi
      end
    | true, false => Some lo
    | false, true => Some hi
    | false, false => None
    end.

Fixpoint shortest (x : float) (num den k : Z) (fuel : nat) (n : Z)
  : Z * Z :=
  match fuel with
  | O => ((num * 10 ^ (n - k) / den)%Z, n)
  | S fuel' =>
    match candidate x num den k n with
    | Some d => (d, n)
    | None => shortest x num den k fuel' (n + 1)%Z
    end
  end.

Fixpoint strip_zeros_rev (r : pystr) (dropped : Z) : pystr * Z :=
  match r with
  | 48%N :: r' => strip_zeros_rev r' (dropped + 1)%Z
  | _ => (rev r, dropped)
  end.

Definition zeros (n : Z) : pystr := repeat 48%N (Z.to_nat n).

(** The digits [ds] with the decimal point after the first [decpt] of
    them, in the layout of [repr]. *)
Definition layout (ds : pystr) (decpt : Z) : pystr :=
  let n := Z.of_nat (List.length ds) in
  if ((decpt <=? -4) || (16 <? decpt))%Z then
    let e := (decpt - 1)%Z in
    let mant :=
      match ds with
      | d :: ((_ :: _) as rest) => d :: 46%N :: rest
      | _ => ds
      end in
    let ed := digits_of (Z.abs e) in
    let ed := if (Z.abs e <? 10)%Z then 48%N :: ed else ed in
    mant ++ [101%N; if (e <? 0)%Z then 45%N else 43%N] ++ ed
  else if (decpt <=? 0)%Z then
    [48%N; 46%N] ++ zeros (- decpt) ++ ds
  else if (n <=? decpt)%Z then
    ds ++ zeros (decpt - n) ++ [46%N; 48%N]
  else
    firstn (Z.to_nat decpt) ds ++ [46%N] ++ skipn (Z.to_nat decpt) ds.

Definition repr_pos (m : positive) (e : Z) : pystr :=
  let x := S754_finite false m e in
  let '(num, den) :=
    if (0 <=? e)%Z then (Zpos m * 2 ^ e, 1)%Z else (Zpos m, 2 ^ (- e))%Z in
  let k := decimal_point num den in
  let '(d, n) := shortest x num den k 17 1%Z in
  let '(ds, dropped) := strip_zeros_rev (rev (digits_of d)) 0%Z in
  layout ds (Z.of_nat (List.length ds) + dropped + (k - n))%Z.

Definition repr (x : float) : pystr :=
  match x with
  | S754_nan => py "nan"
  | S754_infinity false => py "inf"
  | S754_infinity true => py "-inf"
  | S754_zero false => py "0.0"
  | S754_zero true => py "-0.0"
  | S754_finite s m e =>
    if s then 45%N :: repr_pos m e else repr_pos m e
  end.

End Float.

(* ================================================================= *)
(** ** An excerpt of the Unicode Character Database

    The entries of the database for the code points U+0000 to U+00FF, the
    currency signs U+20AC, U+20B1, U+20B9 and U+20BD and the sign U+2122,
    and for the code points their decompositions introduce.  [ucd] is
    exact on strings over these code points; a code point outside the
    tables is treated as a starter with no mapping.  It is used to
    evaluate the functions on concrete text and to show that the laws of
    [UnicodeLaws] are satisfiable. *)

Module UCD.

(** Canonical decompositions, [(composite, (base, mark))]. *)
Definition canonical : list (codepoint * (codepoint * codepoint)) :=
  [
    (0xC0, (0x41, 0x300)); (0xC1, (0x41, 0x301)); (0xC2, (0x41, 0x302));
    (0xC3, (0x41, 0x303)); (0xC4, (0x41, 0x308)); (0xC5, (0x41, 0x30A));
    (0xC7, (0x43, 0x327)); (0xC8, (0x45, 0x300)); (0xC9, (0x45, 0x301));
    (0xCA, (0x45, 0x302)); (0xCB, (0x45, 0x308)); (0xCC, (0x49, 0x300));
    (0xCD, (0x49, 0x301)); (0xCE, (0x49, 0x302)); (0xCF, (0x49, 0x308));
    (0xD1, (0x4E, 0x303)); (0xD2, (0x4F, 0x300)); (0xD3, (0x4F, 0x301));
    (0xD4, (0x4F, 0x302)); (0xD5, (0x4F, 0x303)); (0xD6, (0x4F, 0x308));
    (0xD9, (0x55, 0x300)); (0xDA, (0x55, 0x301)); (0xDB, (0x55, 0x302));
    (0xDC, (0x55, 0x308)); (0xDD, (0x59, 0x301)); (0xE0, (0x61, 0x300));
    (0xE1, (0x61, 0x301)); (0xE2, (0x61, 0x302)); (0xE3, (0x61, 0x303));
    (0xE4, (0x61, 0x308)); (0xE5, (0x61, 0x30A)); (0xE7, (0x63, 0x327));
    (0xE8, (0x65, 0x300)); (0xE9, (0x65, 0x301)); (0xEA, (0x65, 0x302));
    (0xEB, (0x65, 0x308)); (0xEC, (0x69, 0x300)); (0xED, (0x69, 0x301));
    (0xEE, (0x69, 0x302)); (0xEF, (0x69, 0x308)); (0xF1, (0x6E, 0x303));
    (0xF2, (0x6F, 0x300)); (0xF3, (0x6F, 0x301)); (0xF4, (0x6F, 0x302));
    (0xF5, (0x6F, 0x303)); (0xF6, (0x6F, 0x308)); (0xF9, (0x75, 0x300));
    (0xFA, (0x75, 0x301)); (0xFB, (0x75, 0x302)); (0xFC, (0x75, 0x308));
    (0xFD, (0x79, 0x301)); (0xFF, (0x79, 0x308))
  ]%N.

(** Compatibility decompositions, fully decomposed. *)
Definition compatibility : list (codepoint * pystr) :=
  [
    (0xA0, [0x20]); (0xA8, [0x20; 0x308]); (0xAA, [0x61]);
    (0xAF, [0x20; 0x304]); (0xB2, [0x32]); (0xB3, [0x33]);
    (0xB4, [0x20; 0x301]); (0xB5, [0x3BC]); (0xB8, [0x20; 0x327]);
    (0xB9, [0x31]); (0xBA, [0x6F]); (0xBC, [0x31; 0x2044; 0x34]);
    (0xBD, [0x31; 0x2044; 0x32]); (0xBE, [0x33; 0x2044; 0x34]);
    (0x2122, [0x54; 0x4D])
  ]%N.

(** Combining classes other than [0]. *)
Definition classes : list (codepoint * N) :=
  [ (0x300, 230); (0x301, 230); (0x302, 230); (0x303, 230); (0x304, 230);
    (0x308, 230); (0x30A, 230); (0x327, 202) ]%N.

Fixpoint assoc {V} (k : codepoint) (l : list (codepoint * V)) : option V :=
  match l with
  | [] => None
  | (k', v) :: l' => if (k =? k')%N then Some v else assoc k l'
  end.

Definition decomposition (c : codepoint) : pystr :=
  match assoc c canonical with
  | Some (b, m) => [b; m]
  | None =>
    match assoc c compatibility with
    | Some d => d
    | None => [c]
    end
  end.

Definition ccc (c : codepoint) : N :=
  match assoc c classes with
  | Some n => n
  | None => 0%N
  end.

(** Canonical ordering: a combining mark moves left past the marks of a
    higher class that precede it.  [place c r] adds [c] to the reversed
    output [r]. *)
Fixpoint place (c : codepoint) (r : pystr) : pystr :=
  match r with
  | p :: r' =>
    if ((0 <? ccc c) && (ccc c <? ccc p))%N then p :: place c r'
    else c :: r
  | [] => [c]
  end.

Definition reorder (s : pystr) : pystr :=
  rev (fold_left (fun r c => place c r) s []).

Definition nfkd (s : pystr) : pystr := reorder (flat_map decomposition s).

(** Canonical composition: a character composes with the last starter
    unless a mark of the same or a higher class stands between them. *)
Fixpoint composite (b m : codepoint)
         (l : list (codepoint * (codepoint * codepoint))) : option codepoint :=
  match l with
  | [] => None
  | (c, (b', m')) :: l' =>
    if ((b =? b') && (m =? m'))%N then Some c else composite b m l'
  end.

Fixpoint compose_run (st : codepoint) (kept : pystr) (s : pystr) : pystr :=
  match s with
  | [] => st :: kept
  | c :: r =>
    let blocked :=
      match rev kept with
      | [] => false
      | k :: _ => (ccc c <=? ccc k)%N
      end in
    match (if blocked then None else composite st c canonical) with
    | Some p => compose_run p kept r
    | None =>
      if (ccc c =? 0)%N then st :: kept ++ compose_run c [] r
      else compose_run st (kept ++ [c]) r
    end
  end.

Fixpoint compose (s : pystr) : pystr :=
  match s with
  | [] => []
  | c :: r => if (ccc c =? 0)%N then compose_run c [] r else c :: compose r
  end.

Definition nfkc (s : pystr) : pystr := compose (nfkd s).

(** Lowercase of one character: the letters of ASCII and of Latin-1. *)
Definition lower_char (c : codepoint) : codepoint :=
  if (c <? 128)%N then ascii_lower c
  else if ((0xC0 <=? c) && (c <=? 0xDE) && negb (c =? 0xD7))%N then (c + 32)%N
  else c.

Definition isspace (c : codepoint) : bool :=
  if (c <? 128)%N then ascii_isspace c
  else ((c =? 0x85) || (c =? 0xA0))%N.

Definition decimal (c : codepoint) : option N :=
  if ((48 <=? c) && (c <=? 57))%N then Some (c - 48)%N else None.

End UCD.

#[export] Instance ucd : Unicode := {
  nfkd := UCD.nfkd;
  nfkc := UCD.nfkc;
  combining := UCD.ccc;
  lower := map UCD.lower_char;
  isspace := UCD.isspace;
  decimal := UCD.decimal
}.

(* ================================================================= *)
(** ** Values *)

(** The values a cell or an argument can hold.  [PyObject text] is any
    other object, known to the module only through [str()].  The text
    of an [int] is its decimal numeral, without the interpreter's
    optional limit on the number of digits. *)
Inductive pyvalue :=
| PyNone
| PyBool (b : bool)
| PyInt (z : Z)
| PyFloat (f : Float.float)
| PyStr (s : pystr)
| PyObject (text : pystr).

(** [str(value)] *)
Definition str (value : pyvalue) : pystr :=
  match value with
  | PyNone => py "None"
  | PyBool true => py "True"
  | PyBool false => py "False"
  | PyInt z => Float.str_of_int z
  | PyFloat f => Float.repr f
  | PyStr s => s
  | PyObject text => text
  end.

(* ================================================================= *)
(** ** [src/converters.py] *)

Section Converters.

Context {U : Unicode}.

Definition _ID_KEYWORDS : list pystr := [py "id"].

(** [("$", "€", "£", "¥", "₽", "₱", "₹")], one character each. *)
Definition _CURRENCY_SYMBOLS : list codepoint :=
  [0x24; 0x20AC; 0xA3; 0xA5; 0x20BD; 0x20B1; 0x20B9]%N.

Definition normalize_column_name (name : pyvalue) : pystr :=
  match name with
  | PyStr s =>
    let normalized := nfkd (lower (Str.strip isspace s)) in
    filter starter normalized
  | _ => []
  end.

Definition _strip_currency_symbols (value : pystr) : pystr :=
  fold_left (fun cleaned symbol => Str.replace symbol [] cleaned)
            _CURRENCY_SYMBOLS value.

Definition _coerce_to_string (value : pyvalue) : option pystr :=
  match value with
  | PyNone => None
  | PyInt _ => Some (str value)
  | PyFloat f => if Float.isnan f then None else Some (str value)
  | _ =>
    match Str.strip isspace (str value) with
    | [] => None
    | text => Some text
    end
  end.

(** Lines 50 to 66 of [_parse_numeric_text]: the sign syntax is
    consumed and the spaces are removed. *)
Definition detect_sign (cleaned : pystr) : pystr * bool :=
  let is_negative := false in
  let '(cleaned, is_negative) :=
    if Str.startswith cleaned (py "(") && Str.endswith cleaned (py ")")
    then (Str.slice_1_m1 cleaned, true) else (cleaned, is_negative) in
  let '(cleaned, is_negative) :=
    if Str.endswith cleaned (py "-")
    then (Str.drop_last cleaned, true) else (cleaned, is_negative) in
  let '(cleaned, is_negative) :=
    if Str.startswith cleaned (py "-")
    then (Str.drop_first cleaned, true) else (cleaned, is_negative) in
  let cleaned :=
    if Str.startswith cleaned (py "+")
    then Str.drop_first cleaned else cleaned in
  (Str.replace 32%N [] cleaned, is_negative).

(** Lines 68 to 79: which of [.] and [,] is the decimal point. *)
Definition resolve_separators (cleaned : pystr) : pystr :=
  if Str.contains cleaned (py ".") && Str.contains cleaned (py ",") then
    let last_dot := Str.rfind 46%N cleaned in
    let last_comma := Str.rfind 44%N cleaned in
    if (last_comma <? last_dot)%Z then Str.replace 44%N [] cleaned
    else Str.replace 44%N (py ".") (Str.replace 46%N [] cleaned)
  else if (Str.count 44%N cleaned =? 1)%nat
          && (List.length (nth 1 (Str.split 44%N cleaned) []) <=? 2)%nat
  then Str.replace 44%N (py ".") cleaned
  else Str.replace 44%N [] cleaned.

(** Lines 81 to 83: all but the last [.] are grouping marks. *)
Definition collapse_dots (cleaned : pystr) : pystr :=
  if (1 <? Str.count 46%N cleaned)%nat then
    let parts := Str.split 46%N cleaned in
    Str.join (removelast parts) ++ py "." ++ last parts []
  else cleaned.

Definition _parse_numeric_text (text_value : pyvalue)
  : option pystr * bool :=
  match _coerce_to_string text_value with
  | None => (None, false)
  | Some text =>
    let cleaned := nfkc text in
    let cleaned := Str.replace 0xA0%N [] cleaned in
    let cleaned := _strip_currency_symbols cleaned in
    let '(cleaned, is_negative) := detect_sign cleaned in
    let cleaned := resolve_separators cleaned in
    let cleaned := collapse_dots cleaned in
    let cleaned := Str.replace 39%N [] cleaned in
    match Float.of_str cleaned with
    | None => (None, false)
    | Some _ => (Some cleaned, is_negative)
    end
  end.

Definition is_numeric_like (text_value : pyvalue) : bool :=
  match _parse_numeric_text text_value with
  | (Some _, _) => true
  | (None, _) => false
  end.

(** The result is a float, or [None] for [pandas.NA]. *)
Definition convert_numeric_text (text_value : pyvalue)
  : result (option Float.float) :=
  match text_value with
  | PyNone => Ok None
  | PyInt z => (f <- Float.of_int z ;; Ok (Some f))%result
  | PyFloat f => if Float.isnan f then Ok None else Ok (Some f)
  | _ =>
    match _parse_numeric_text text_value with
    | (None, _) => Ok None
    | (Some cleaned, is_negative) =>
      match Float.of_str cleaned with
      | None => Ok None
      | Some result =>
        Ok (Some (if is_negative then Float.neg result else result))
      end
    end
  end.

Definition _should_force_numeric (norm_column_name : pystr) : bool :=
  existsb (fun keyword => Str.contains norm_column_name keyword)
          _ID_KEYWORDS.

End Converters.

(* ================================================================= *)
(** ** Tables *)

(** What the module observes of a column's dtype: whether it is numeric
    ([is_numeric_dtype]), [object], a string dtype ([is_string_dtype]),
    or none of these (dates, categories). *)
Inductive dtype := dtype_numeric | dtype_object | dtype_string | dtype_other.

Record Series := { series_dtype : dtype; series_values : list pyvalue }.

(** A table is its columns in order, each under its label; labels are
    strings and, in a well-formed table, distinct. *)
Definition DataFrame := list (pystr * Series).

Module Pandas.

Definition columns (df : DataFrame) : list pystr := map fst df.

(** [df[column]] *)
Fixpoint getitem (df : DataFrame) (column : pystr) : option Series :=
  match df with
  | [] => None
  | (label, s) :: df' =>
    if pystr_eqb label column then Some s else getitem df' column
  end.

(** [df[column] = s]: the column is replaced where it stands, a new
    label is added at the end. *)
Fixpoint setitem (df : DataFrame) (column : pystr) (s : Series)
  : DataFrame :=
  match df with
  | [] => [(column, s)]
  | (label, s0) :: df' =>
    if pystr_eqb label column then (label, s) :: df'
    else (label, s0) :: setitem df' column s
  end.

Definition is_numeric_dtype (s : Series) : bool :=
  match series_dtype s with dtype_numeric => true | _ => false end.
Definition is_object_dtype (s : Series) : bool :=
  match series_dtype s with dtype_object => true | _ => false end.
Definition is_string_dtype (s : Series) : bool :=
  match series_dtype s with dtype_string => true | _ => false end.

(** A missing cell is [None] or the float NaN. *)
Definition isna (v : pyvalue) : bool :=
  match v with
  | PyNone => true
  | PyFloat f => Float.isnan f
  | _ => false
  end.

(** [series.dropna()], as the values that remain. *)
Definition dropna (vs : list pyvalue) : list pyvalue :=
  filter (fun v => negb (isna v)) vs.

(** [pd.to_numeric(series, errors="coerce")] of floats and [pandas.NA]:
    a numeric column in which NaN stands for the missing values. *)
Definition to_numeric (vs : list (option Float.float)) : Series :=
  {| series_dtype := dtype_numeric;
     series_values :=
       map (fun o => match o with
                     | Some f => PyFloat f
                     | None => PyFloat Float.nan
                     end) vs |}.

End Pandas.

(** A [for] loop whose body may raise. *)
Fixpoint for_each {S A} (body : S -> A -> result S) (l : list A) (st : S)
  : result S :=
  match l with
  | [] => Ok st
  | a :: l' => (st' <- body st a ;; for_each body l' st')%result
  end.

Section TableConverter.

Context {U : Unicode}.

(** [non_null.map(_coerce_to_string).dropna()] *)
Definition cleaned_non_null (series : Series) : list pystr :=
  flat_map (fun v => match _coerce_to_string v with
                     | Some text => [text]
                     | None => []
                     end)
           (Pandas.dropna (series_values series)).

Definition is_empty {A} (l : list A) : bool :=
  match l with [] => true | _ => false end.

(** The body of the loop of [convert_text_columns_to_numbers]; the
    state is the table and the list [converted_columns]. *)
Definition convert_column (st : DataFrame * list pystr) (column : pystr)
  : result (DataFrame * list pystr) :=
  let '(df, converted_columns) := st in
  match Pandas.getitem df column with
  | None => Raise KeyError
  | Some series =>
    if Pandas.is_numeric_dtype series then Ok st else
    let normalized_name := normalize_column_name (PyStr column) in
    let force_numeric := _should_force_numeric normalized_name in
    if negb (force_numeric || Pandas.is_object_dtype series
             || Pandas.is_string_dtype series) then Ok st else
    let non_null := Pandas.dropna (series_values series) in
    if is_empty non_null && negb force_numeric then Ok st else
    let cleaned := cleaned_non_null series in
    if is_empty cleaned && negb force_numeric then Ok st else
    if force_numeric
       || forallb (fun text => is_numeric_like (PyStr text)) cleaned
    then
      (numeric_series <- mapM convert_numeric_text (series_values series) ;;
       Ok (Pandas.setitem df column (Pandas.to_numeric numeric_series),
           converted_columns ++ [column]))%result
    else Ok st
  end.

Definition convert_text_columns_to_numbers (df : DataFrame)
  : result (DataFrame * list pystr) :=
  for_each convert_column (Pandas.columns df) (df, []).

Definition find_columns_with_keywords (columns keywords : list pyvalue)
  : list pyvalue :=
  let normalized_keywords := map normalize_column_name keywords in
  fold_left
    (fun matches column =>
       let normalized_column := normalize_column_name column in
       if existsb (fun keyword =>
                     negb (is_empty keyword)
                     && Str.contains normalized_column keyword)
                  normalized_keywords
       then matches ++ [column] else matches)
    columns [].

(** *** [src/app.py], the monetary columns of [upload_file] *)

Definition money_col_targets : list pystr :=
  [ py "valor de la compra";
    py "comision mas iva";
    py "comisión más iva";
    py "monto neto de operacion";
    py "monto neto de operación";
    py "impuestos cobrados por retenciones iibb" ].

(** [norm_col in money_col_targets], for the column [col] *)
Definition is_money_column (col : pyvalue) : bool :=
  let norm_col := normalize_column_name col in
  existsb (fun target => pystr_eqb norm_col target) money_col_targets.

End TableConverter.

(* ================================================================= *)
(** ** [src/app.py]: file names *)

(** [s.rsplit(sep, 1)] for a one-character [sep]: the text before and
    after the last [sep], or [s] alone. *)
Definition rsplit1 (sep : codepoint) (s : pystr) : list pystr :=
  let r := Str.rfind sep s in
  if (r <? 0)%Z then [s]
  else [firstn (Z.to_nat r) s; skipn (S (Z.to_nat r)) s].

(** [s.split(sep, maxsplit)] for a one-character [sep]. *)
Fixpoint split_max (sep : codepoint) (s : pystr) (maxsplit : nat)
  : list pystr :=
  match s with
  | [] => [[]]
  | c :: s' =>
    match maxsplit with
    | O => [s]
    | S n =>
      if (c =? sep)%N then [] :: split_max sep s' n
      else match split_max sep s' maxsplit with
           | hd :: tl => (c :: hd) :: tl
           | [] => [[c]]
           end
    end
  end.

Definition ALLOWED_EXTENSIONS : list pystr := [py "xlsx"; py "xls"].

(** [allowed_file(filename)] *)
Definition allowed_file `{Unicode} (filename : pystr) : bool :=
  Str.contains filename (py ".")
  && existsb (pystr_eqb (lower (nth 1 (rsplit1 46%N filename) [])))
             ALLOWED_EXTENSIONS.

(** [upload_file]: the name under which the processed file is saved,
    [f"{unique_id}_processed_{original_filename}"]. *)
Definition processed_filename (unique_id original_filename : pystr) : pystr :=
  unique_id ++ py "_processed_" ++ original_filename.

(** [download_file]: the name offered to the browser,
    [f"convertido_{normalized_filename.split('_', 2)[-1]}"]. *)
Definition download_name (normalized_filename : pystr) : pystr :=
  py "convertido_" ++ last (split_max 95%N normalized_filename 2) [].

(** [upload_file]: the columns that get the integer format, those with
    ["id" in norm_col]. *)
Definition is_id_column `{Unicode} (col : pyvalue) : bool :=
  Str.contains (normalize_column_name col) (py "id").

(** [upload_file]: [date_keywords]. *)
Definition date_keywords : list pyvalue :=
  [PyStr (py "fecha"); PyStr (py "liberacion"); PyStr (py "liberación")].

(* ================================================================= *)
(** ** Vocabulary of the statements *)

(** [substring p s]: [p] occurs in [s]. *)
Definition substring (p s : pystr) : Prop :=
  exists pre post, s = pre ++ p ++ post.

(** [undecomposable c]: the excerpt gives [c] no decomposition. *)
Definition undecomposable (c : codepoint) : bool :=
  pystr_eqb (UCD.decomposition c) [c].

(** [trimmed f s]: [s] neither starts nor ends with a character of [f]. *)
Definition trimmed (f : codepoint -> bool) (s : pystr) : Prop :=
  match s with [] => True | c :: _ => f c = false end
  /\ match rev s with [] => True | c :: _ => f c = false end.

(** [stable_name n]: trimming and lowercasing leave [n] as it is. *)
Definition stable_name `{Unicode} (n : pystr) : Prop :=
  lower (Str.strip isspace n) = n.

(** [keyword_hit keywords column]: some keyword that does not normalize to
    the empty string occurs in the normalized name of [column]. *)
Definition keyword_hit `{Unicode} (keywords : list pyvalue) (column : pyvalue)
  : bool :=
  existsb (fun keyword =>
             negb (is_empty (normalize_column_name keyword))
             && Str.contains (normalize_column_name column)
                             (normalize_column_name keyword))
          keywords.

(** [is_sep c]: [c] is one of the marks [.] and [,]. *)
Definition is_sep (c : codepoint) : bool := ((c =? 46) || (c =? 44))%N.

(** [before_separators text]: what lines 42 to 66 of
    [_parse_numeric_text] make of the string [text], the value on which
    the decimal mark is then decided. *)
Definition before_separators `{Unicode} (text : pystr) : pystr :=
  fst (detect_sign
         (_strip_currency_symbols
            (Str.replace 0xA0%N [] (nfkc (Str.strip isspace text))))).

(** [despace s]: [s] without its spaces. *)
Definition despace (s : pystr) : pystr :=
  filter (fun c => negb (c =? 32)%N) s.

(** [unsigned d]: [d] does not start with [-] or [+] and does not end
    with [-]. *)
Definition unsigned (d : pystr) : Prop :=
  match d with c :: _ => c <> 45%N /\ c <> 43%N | [] => True end
  /\ match rev d with c :: _ => c <> 45%N | [] => True end.

(** [parenthesized d]: [d] is some text between [(] and [)]. *)
Definition parenthesized (d : pystr) : Prop :=
  exists m, d = 40%N :: m ++ [41%N].

Definition is_currency (c : codepoint) : bool :=
  existsb (N.eqb c) _CURRENCY_SYMBOLS.

(** [before_sign text]: what lines 42 to 48 of [_parse_numeric_text] make
    of the string [text], the value whose sign is then read. *)
Definition before_sign `{Unicode} (text : pystr) : pystr :=
  _strip_currency_symbols
    (Str.replace 0xA0%N [] (nfkc (Str.strip isspace text))).

(** The steps of [detect_sign] that follow the parentheses. *)
Definition after_parens (st : pystr * bool) : pystr * bool :=
  let '(cleaned, is_negative) := st in
  let '(cleaned, is_negative) :=
    if Str.endswith cleaned [45%N]
    then (Str.drop_last cleaned, true) else (cleaned, is_negative) in
  let '(cleaned, is_negative) :=
    if Str.startswith cleaned [45%N]
    then (Str.drop_first cleaned, true) else (cleaned, is_negative) in
  let cleaned :=
    if Str.startswith cleaned [43%N]
    then Str.drop_first cleaned else cleaned in
  (Str.replace 32%N [] cleaned, is_negative).

(** [force_numeric column]: the normalized label contains ["id"]. *)
Definition force_numeric `{Unicode} (column : pystr) : bool :=
  _should_force_numeric (normalize_column_name (PyStr column)).

(** [textual series]: the dtype is [object] or a string dtype. *)
Definition textual (series : Series) : bool :=
  Pandas.is_object_dtype series || Pandas.is_string_dtype series.

(** [all_numeric_like series]: every cleaned non-null display string of
    the column is numeric-like. *)
Definition all_numeric_like `{Unicode} (series : Series) : bool :=
  forallb (fun text => is_numeric_like (PyStr text)) (cleaned_non_null series).

(** [converts column series]: the column passes every test of the loop
    body and is converted. *)
Definition converts `{Unicode} (column : pystr) (series : Series) : bool :=
  negb (Pandas.is_numeric_dtype series)
  && (force_numeric column
      || textual series
         && negb (is_empty (cleaned_non_null series))
         && all_numeric_like series).

(** The column that replaces a converted one. *)
Definition converted_series `{Unicode} (series : Series) : result Series :=
  (numeric_series <- mapM convert_numeric_text (series_values series) ;;
   Ok (Pandas.to_numeric numeric_series))%result.

(** One column of the table, as the loop leaves it. *)
Definition convert_entry `{Unicode} (e : pystr * Series)
  : result (pystr * Series) :=
  if converts (fst e) (snd e)
  then (s <- converted_series (snd e) ;; Ok (fst e, s))%result
  else Ok e.

(** [fits_float v]: [v] is not an [int] beyond the range of [float]. *)
Definition fits_float (v : pyvalue) : bool :=
  match v with
  | PyInt z => match Float.of_int z with Ok _ => true | Raise _ => false end
  | _ => true
  end.

(** [representable df]: every cell of the table fits a float. *)
Definition representable (df : DataFrame) : Prop :=
  Forall (fun e => Forall (fun v => fits_float v = true)
                          (series_values (snd e))) df.

Definition pyvalue_eq_dec (x y : pyvalue) : {x = y} + {x <> y}.
Proof.
  decide equality; try apply Bool.bool_dec; try apply Z.eq_dec;
    try apply Float.eq_dec; apply (list_eq_dec N.eq_dec).
Defined.

Definition Series_eq_dec (x y : Series) : {x = y} + {x <> y}.
Proof.
  decide equality; [apply (list_eq_dec pyvalue_eq_dec) | decide equality].
Defined.

(** [same_column df df' c]: the label [c] names the same column, or none,
    in both tables. *)
Definition same_column (df df' : DataFrame) (c : pystr) : bool :=
  match Pandas.getitem df c, Pandas.getitem df' c with
  | Some s, Some s' => if Series_eq_dec s s' then true else false
  | None, None => true
  | _, _ => false
  end.

(** The tables of the examples: one [object] column of the given cells. *)
Definition object_column (label : string) (cells : list pyvalue)
  : pystr * Series :=
  (py label, {| series_dtype := dtype_object; series_values := cells |}).

Definition numeric_column (label : string) (cells : list pyvalue)
  : pystr * Series :=
  (py label, {| series_dtype := dtype_numeric; series_values := cells |}).

Definition mixed_cells : list pyvalue :=
  [PyStr (py "$123"); PyStr (py "no aplicar"); PyStr (py "$456")].

Definition id_cells : list pyvalue :=
  [PyStr (py "000123"); PyStr (py " 456 "); PyNone].

(** [is_text v]: [v] is neither [None] nor a number; a [bool] is text. *)
Definition is_text (v : pyvalue) : bool :=
  match v with
  | PyBool _ | PyStr _ | PyObject _ => true
  | _ => false
  end.


(* ================================================================= *)
(** * Properties *)

(** ** Strings *)

Lemma pystr_eqb_eq a b : pystr_eqb a b = true <-> a = b.
Proof.
  unfold pystr_eqb. destruct (list_eq_dec N.eq_dec a b); split; congruence.
Qed.

Lemma startswith_spec s p :
  Str.startswith s p = true <-> exists post, s = p ++ post.
Proof.
  revert s. induction p as [|c p IH]; intros s; simpl.
  - split; [exists s; reflexivity | destruct s; reflexivity].
  - destruct s as [|d s]; simpl.
    + split; [discriminate | intros [post H]; discriminate].
    + rewrite andb_true_iff, N.eqb_eq, IH. split.
      * intros [-> [post ->]]. exists post. reflexivity.
      * intros [post H]. injection H as -> ->. split; [reflexivity|].
        exists post. reflexivity.
Qed.

Lemma contains_spec s p : Str.contains s p = true <-> substring p s.
Proof.
  unfold substring. induction s as [|d s IH]; cbn [Str.contains].
  - rewrite orb_false_r, startswith_spec. split.
    + intros [post H]. exists [], post. exact H.
    + intros [pre [post H]]. destruct pre; simpl in H.
      * exists post. exact H.
      * discriminate.
  - rewrite orb_true_iff, startswith_spec, IH. split.
    + intros [[post H] | [pre [post H]]].
      * exists [], post. exact H.
      * exists (d :: pre), post. simpl. rewrite H. reflexivity.
    + intros [pre [post H]]. destruct pre as [|d' pre]; simpl in H.
      * left. exists post. exact H.
      * right. injection H as _ H. exists pre, post. exact H.
Qed.

Lemma contains_char s c : Str.contains s [c] = existsb (N.eqb c) s.
Proof.
  induction s as [|d s IH]; [reflexivity|].
  cbn [Str.contains existsb Str.startswith]. rewrite IH.
  destruct s; rewrite andb_true_r; reflexivity.
Qed.

Lemma replace_delete old s :
  Str.replace old [] s = filter (fun c => negb (c =? old)%N) s.
Proof.
  unfold Str.replace. induction s as [|c s IH]; simpl; [reflexivity|].
  rewrite IH. destruct (c =? old)%N; reflexivity.
Qed.

Lemma replace_char old new s :
  Str.replace old [new] s = map (fun c => if (c =? old)%N then new else c) s.
Proof.
  unfold Str.replace. induction s as [|c s IH]; simpl; [reflexivity|].
  rewrite IH. destruct (c =? old)%N; reflexivity.
Qed.

Lemma filter_id {A} (f : A -> bool) l :
  (forall x, In x l -> f x = true) -> filter f l = l.
Proof.
  induction l as [|a l IH]; simpl; intros H; [reflexivity|].
  rewrite (H a) by (left; reflexivity). f_equal. apply IH.
  intros x Hx. apply H. right. exact Hx.
Qed.

Lemma lstrip_fixed isspace s :
  match s with [] => True | c :: _ => isspace c = false end ->
  Str.lstrip isspace s = s.
Proof. destruct s as [|c s]; simpl; [reflexivity|]. intros ->. reflexivity. Qed.

Lemma lstrip_head isspace s :
  match Str.lstrip isspace s with
  | [] => True
  | c :: _ => isspace c = false
  end.
Proof.
  induction s as [|c s IH]; simpl; [exact I|].
  destruct (isspace c) eqn:E; [exact IH | exact E].
Qed.

Lemma lstrip_idem isspace s :
  Str.lstrip isspace (Str.lstrip isspace s) = Str.lstrip isspace s.
Proof. apply lstrip_fixed, lstrip_head. Qed.

Lemma lstrip_suffix isspace s :
  exists pre, s = pre ++ Str.lstrip isspace s
              /\ Forall (fun c => isspace c = true) pre.
Proof.
  induction s as [|c s [pre [H1 H2]]]; simpl.
  - exists []. split; constructor.
  - destruct (isspace c) eqn:E.
    + exists (c :: pre). split; [simpl; f_equal; exact H1|].
      constructor; assumption.
    + exists []. split; constructor.
Qed.

(** ** The excerpt satisfies the laws *)

Lemma assoc_In {V} k (l : list (codepoint * V)) v :
  UCD.assoc k l = Some v -> In (k, v) l.
Proof.
  induction l as [|[k' v'] l IH]; simpl; [discriminate|].
  destruct (k =? k')%N eqn:E.
  - intros H. injection H as ->. apply N.eqb_eq in E. subst. left. reflexivity.
  - intros H. right. apply IH. exact H.
Qed.

Lemma assoc_below {V} (bound : N) (l : list (codepoint * V)) c :
  forallb (fun kv => (bound <=? fst kv)%N) l = true ->
  (c < bound)%N -> UCD.assoc c l = None.
Proof.
  intros Hl Hc. destruct (UCD.assoc c l) as [v|] eqn:E; [|reflexivity].
  apply assoc_In in E. rewrite forallb_forall in Hl.
  apply Hl in E. simpl in E. apply N.leb_le in E. lia.
Qed.

Lemma ucd_decomposition_ascii c : is_ascii c -> UCD.decomposition c = [c].
Proof.
  unfold is_ascii, UCD.decomposition. intros Hc.
  rewrite (@assoc_below _ 128%N UCD.canonical c) by (reflexivity || exact Hc).
  rewrite (@assoc_below _ 128%N UCD.compatibility c) by (reflexivity || exact Hc).
  reflexivity.
Qed.

Lemma ucd_ccc_ascii c : is_ascii c -> UCD.ccc c = 0%N.
Proof.
  unfold is_ascii, UCD.ccc. intros Hc.
  rewrite (@assoc_below _ 128%N UCD.classes c) by (reflexivity || exact Hc).
  reflexivity.
Qed.

Lemma place_starter c r : UCD.ccc c = 0%N -> UCD.place c r = c :: r.
Proof. intros H. destruct r; simpl; [reflexivity|]. rewrite H. reflexivity. Qed.

Lemma place_In x c r : In x (UCD.place c r) -> x = c \/ In x r.
Proof.
  induction r as [|p r IH]; simpl.
  - intros [->|[]]. left. reflexivity.
  - destruct ((0 <? UCD.ccc c) && (UCD.ccc c <? UCD.ccc p))%N; simpl.
    + intros [->|H]; [right; left; reflexivity|].
      destruct (IH H) as [->|H']; [left; reflexivity | right; right; exact H'].
    + intros [->|H]; [left; reflexivity | right; exact H].
Qed.

Lemma reorder_fold_starters s acc :
  Forall (fun c => UCD.ccc c = 0%N) s ->
  fold_left (fun r c => UCD.place c r) s acc = rev s ++ acc.
Proof.
  intros H. revert acc. induction H as [|c s Hc _ IH]; intros acc; simpl.
  - reflexivity.
  - rewrite IH, place_starter by exact Hc. rewrite <- app_assoc. reflexivity.
Qed.

Lemma reorder_starters s :
  Forall (fun c => UCD.ccc c = 0%N) s -> UCD.reorder s = s.
Proof.
  intros H. unfold UCD.reorder. rewrite reorder_fold_starters by exact H.
  rewrite app_nil_r. apply rev_involutive.
Qed.

Lemma reorder_fold_In x s acc :
  In x (fold_left (fun r c => UCD.place c r) s acc) -> In x s \/ In x acc.
Proof.
  revert acc. induction s as [|c s IH]; intros acc; simpl.
  - intros H. right. exact H.
  - intros H. destruct (IH _ H) as [H'|H'].
    + left. right. exact H'.
    + destruct (place_In _ _ _ H') as [->|H'']; [left; left; reflexivity|].
      right. exact H''.
Qed.

Lemma reorder_In x s : In x (UCD.reorder s) -> In x s.
Proof.
  unfold UCD.reorder. rewrite <- in_rev. intros H.
  destruct (reorder_fold_In _ _ _ H) as [H'|[]]. exact H'.
Qed.

Lemma ucd_decomposition_full c d :
  In d (UCD.decomposition c) -> UCD.decomposition d = [d].
Proof.
  assert (Hcan : forallb (fun kv => undecomposable (fst (snd kv))
                                    && undecomposable (snd (snd kv)))
                         UCD.canonical = true) by (vm_compute; reflexivity).
  assert (Hcom : forallb (fun kv => forallb undecomposable (snd kv))
                         UCD.compatibility = true) by (vm_compute; reflexivity).
  rewrite forallb_forall in Hcan, Hcom.
  unfold UCD.decomposition at 1.
  destruct (UCD.assoc c UCD.canonical) as [[b m]|] eqn:E1.
  - apply assoc_In, Hcan in E1. simpl in E1. apply andb_true_iff in E1.
    destruct E1 as [Hb Hm]. apply pystr_eqb_eq in Hb, Hm.
    intros [<-|[<-|[]]]; assumption.
  - destruct (UCD.assoc c UCD.compatibility) as [l|] eqn:E2.
    + apply assoc_In, Hcom in E2. simpl in E2. rewrite forallb_forall in E2.
      intros H. apply pystr_eqb_eq, E2, H.
    + intros [<-|[]]. unfold UCD.decomposition. rewrite E1, E2. reflexivity.
Qed.

Lemma flat_map_singletons {A} (f : A -> list A) l :
  (forall x, In x l -> f x = [x]) -> flat_map f l = l.
Proof.
  induction l as [|a l IH]; simpl; intros H; [reflexivity|].
  rewrite (H a) by (left; reflexivity). simpl. f_equal. apply IH.
  intros x Hx. apply H. right. exact Hx.
Qed.

Lemma ucd_nfkd_starters s :
  UCD.nfkd (filter (fun c => (UCD.ccc c =? 0)%N) (UCD.nfkd s))
  = filter (fun c => (UCD.ccc c =? 0)%N) (UCD.nfkd s).
Proof.
  set (t := filter _ (UCD.nfkd s)).
  assert (Ht : forall x, In x t -> UCD.decomposition x = [x] /\ UCD.ccc x = 0%N).
  { intros x Hx. apply filter_In in Hx. destruct Hx as [Hx Hc].
    apply N.eqb_eq in Hc. split; [|exact Hc].
    apply reorder_In, in_flat_map in Hx. destruct Hx as [c [_ Hd]].
    exact (ucd_decomposition_full _ _ Hd). }
  unfold UCD.nfkd at 1. rewrite flat_map_singletons by (intros x Hx; apply Ht, Hx).
  apply reorder_starters, Forall_forall. intros x Hx. apply Ht, Hx.
Qed.

#[export] Instance ucd_laws : UnicodeLaws ucd.
Proof.
  constructor.
  - intros s Hs. cbn [nfkd ucd]. unfold UCD.nfkd.
    rewrite flat_map_singletons.
    + apply reorder_starters. eapply Forall_impl; [|exact Hs].
      intros c Hc. apply ucd_ccc_ascii, Hc.
    + intros x Hx. rewrite Forall_forall in Hs.
      apply ucd_decomposition_ascii, Hs, Hx.
  - intros c Hc. apply ucd_ccc_ascii, Hc.
  - intros s Hs. cbn [lower ucd]. apply map_ext_in. intros c Hc.
    rewrite Forall_forall in Hs. specialize (Hs c Hc). unfold is_ascii in Hs.
    unfold UCD.lower_char. apply N.ltb_lt in Hs. rewrite Hs. reflexivity.
  - intros c Hc. cbn [isspace ucd]. unfold UCD.isspace, is_ascii in *.
    apply N.ltb_lt in Hc. rewrite Hc. reflexivity.
  - intros s. apply ucd_nfkd_starters.
Qed.

(** ** Trimming *)

Lemma trimmed_strip f s : trimmed f s -> Str.strip f s = s.
Proof.
  intros [H1 H2]. unfold Str.strip, Str.rstrip.
  rewrite (lstrip_fixed f s H1), (lstrip_fixed f (rev s) H2).
  apply rev_involutive.
Qed.

Lemma strip_trimmed f s : trimmed f (Str.strip f s).
Proof.
  unfold Str.strip, Str.rstrip, trimmed. rewrite rev_involutive.
  split; [|apply lstrip_head].
  pose proof (lstrip_head f s) as Hu. set (u := Str.lstrip f s) in *.
  destruct (lstrip_suffix f (rev u)) as [pre [E _]].
  apply (f_equal (@rev _)) in E. rewrite rev_involutive, rev_app_distr in E.
  destruct (rev (Str.lstrip f (rev u))) as [|c w]; [exact I|].
  rewrite E in Hu. exact Hu.
Qed.

Lemma trimmed_map f g s :
  (forall c, In c s -> f (g c) = f c) -> trimmed f s -> trimmed f (map g s).
Proof.
  intros Hg [H1 H2]. unfold trimmed. rewrite <- map_rev. split.
  - destruct s as [|c s]; simpl; [exact I|].
    rewrite Hg by (left; reflexivity). exact H1.
  - destruct (rev s) as [|c w] eqn:E; simpl; [exact I|].
    rewrite Hg; [exact H2|]. apply in_rev. rewrite E. left. reflexivity.
Qed.

Lemma strip_incl f s c : In c (Str.strip f s) -> In c s.
Proof.
  unfold Str.strip, Str.rstrip. intros H. apply in_rev in H.
  destruct (lstrip_suffix f (rev (Str.lstrip f s))) as [pre [E _]].
  assert (H' : In c (rev (Str.lstrip f s))) by (rewrite E; apply in_or_app; right; exact H).
  apply in_rev in H'.
  destruct (lstrip_suffix f s) as [pre' [E' _]].
  rewrite E'. apply in_or_app. right. exact H'.
Qed.

Lemma ascii_lower_ascii c : is_ascii c -> is_ascii (ascii_lower c).
Proof.
  unfold is_ascii, ascii_lower. intros H.
  destruct ((65 <=? c) && (c <=? 90))%N eqn:E; [|exact H].
  apply andb_true_iff in E. destruct E as [_ E]. apply N.leb_le in E. lia.
Qed.

Lemma ascii_lower_idem c : ascii_lower (ascii_lower c) = ascii_lower c.
Proof.
  unfold ascii_lower.
  destruct ((65 <=? c) && (c <=? 90))%N eqn:E; [|rewrite E; reflexivity].
  apply andb_true_iff in E. destruct E as [E1 E2].
  apply N.leb_le in E1, E2.
  replace (c + 32 <=? 90)%N with false by (symmetry; apply N.leb_gt; lia).
  rewrite andb_false_r. reflexivity.
Qed.

Lemma ascii_lower_isspace c :
  ascii_isspace (ascii_lower c) = ascii_isspace c.
Proof.
  unfold ascii_lower.
  destruct ((65 <=? c) && (c <=? 90))%N eqn:E; [|reflexivity].
  apply andb_true_iff in E. destruct E as [E1 E2].
  apply N.leb_le in E1, E2. unfold ascii_isspace.
  replace (c + 32 <=? 13)%N with false by (symmetry; apply N.leb_gt; lia).
  replace (c + 32 <=? 32)%N with false by (symmetry; apply N.leb_gt; lia).
  replace (c <=? 13)%N with false by (symmetry; apply N.leb_gt; lia).
  replace (c <=? 32)%N with false by (symmetry; apply N.leb_gt; lia).
  rewrite !andb_false_r. reflexivity.
Qed.

Section Normalize.

Context {U : Unicode} {L : UnicodeLaws U}.

Lemma filter_starter_nfkd_fixed s :
  filter starter (nfkd (filter starter (nfkd s))) = filter starter (nfkd s).
Proof.
  rewrite nfkd_starters. apply filter_id. intros x Hx.
  apply filter_In in Hx. apply Hx.
Qed.

(** An ASCII name normalizes to its trimmed, lowercased text. *)
Lemma normalize_ascii s :
  Forall is_ascii s ->
  normalize_column_name (PyStr s) = map ascii_lower (Str.strip isspace s).
Proof.
  intros Hs. cbn [normalize_column_name].
  assert (Hstrip : Forall is_ascii (Str.strip isspace s)).
  { rewrite Forall_forall in *. intros c Hc. apply Hs.
    exact (strip_incl _ _ _ Hc). }
  rewrite lower_ascii by exact Hstrip.
  assert (Hl : Forall is_ascii (map ascii_lower (Str.strip isspace s))).
  { rewrite Forall_forall in *. intros c Hc. apply in_map_iff in Hc.
    destruct Hc as [d [<- Hd]]. apply ascii_lower_ascii, Hstrip, Hd. }
  rewrite nfkd_ascii by exact Hl. apply filter_id. intros c Hc.
  unfold starter. rewrite Forall_forall in Hl.
  rewrite combining_ascii by (apply Hl, Hc). reflexivity.
Qed.

(** An ASCII name has a normalized form that trimming and lowercasing
    leave alone. *)
Lemma normalize_ascii_stable s :
  Forall is_ascii s ->
  stable_name (normalize_column_name (PyStr s)).
Proof.
  intros Hs. unfold stable_name. rewrite normalize_ascii by exact Hs.
  assert (Hstrip : Forall is_ascii (Str.strip isspace s)).
  { rewrite Forall_forall in *. intros c Hc. apply Hs.
    exact (strip_incl _ _ _ Hc). }
  set (t := Str.strip isspace s) in *.
  assert (Ht : trimmed isspace (map ascii_lower t)).
  { apply trimmed_map; [|apply strip_trimmed].
    intros c Hc. rewrite Forall_forall in Hstrip.
    rewrite !isspace_ascii
      by (try apply ascii_lower_ascii; apply Hstrip, Hc).
    apply ascii_lower_isspace. }
  rewrite (trimmed_strip Ht).
  rewrite lower_ascii.
  - rewrite map_map. apply map_ext. intros c. apply ascii_lower_idem.
  - rewrite Forall_forall in *. intros c Hc. apply in_map_iff in Hc.
    destruct Hc as [d [<- Hd]]. apply ascii_lower_ascii, Hstrip, Hd.
Qed.

Lemma normalize_stable_idempotent s :
  stable_name (normalize_column_name (PyStr s)) ->
  normalize_column_name (PyStr (normalize_column_name (PyStr s)))
  = normalize_column_name (PyStr s).
Proof.
  unfold stable_name. intros H.
  cbn [normalize_column_name] in *. rewrite H.
  apply filter_starter_nfkd_fixed.
Qed.

End Normalize.

(** C6, as amended: [normalize_column_name] applied twice gives what it
    gives once, for every string that is made of ASCII characters or,
    more generally, whose normalized form is left as it is by trimming
    and lowercasing; normalization is trim, lowercase, NFKD and removal
    of the combining marks, and a value that is not a string normalizes
    to the empty string. *)
Theorem normalize_column_name_idempotent_on_stable
        (U : Unicode) (L : UnicodeLaws U) (s : pystr)
        (H : Forall is_ascii s
             \/ stable_name (normalize_column_name (PyStr s))) :
  normalize_column_name (PyStr (normalize_column_name (PyStr s)))
  = normalize_column_name (PyStr s)
  /\ normalize_column_name (PyStr s)
     = filter starter (nfkd (lower (Str.strip isspace s)))
  /\ (forall v, (forall t, v <> PyStr t) -> normalize_column_name v = []).
Proof.
  split; [|split].
  - apply normalize_stable_idempotent. destruct H as [H|H]; [|exact H].
    apply normalize_ascii_stable, H.
  - reflexivity.
  - intros v Hv. destruct v; try reflexivity. exfalso. exact (Hv s0 eq_refl).
Qed.

Lemma normalize_column_name_idempotent_on_stable_witness :
  normalize_column_name
    (PyStr (normalize_column_name (PyStr (py " Monto Neto de Operación "))))
  = normalize_column_name (PyStr (py " Monto Neto de Operación ")).
Proof.
  apply (normalize_column_name_idempotent_on_stable
           ucd_laws (s := py " Monto Neto de Operación ")).
  right. vm_compute. reflexivity.
Defined.

(** C6 as stated fails: the sign U+2122 is not changed by lowercasing,
    decomposes to the capitals TM, and these are lowercased by a second
    normalization. *)
Lemma normalize_column_name_not_idempotent :
  normalize_column_name (PyStr (py "™")) = py "TM"
  /\ normalize_column_name (PyStr (normalize_column_name (PyStr (py "™"))))
     = py "tm"
  /\ normalize_column_name (PyStr (normalize_column_name (PyStr (py "™"))))
     <> normalize_column_name (PyStr (py "™")).
Proof.
  split; [|split]; [vm_compute; reflexivity ..|].
  vm_compute. discriminate.
Qed.

(** ** Keyword search and the monetary columns *)

Section Keywords.

Context {U : Unicode}.

Lemma find_columns_fold (keep : pyvalue -> bool) columns acc :
  fold_left (fun matches (column : pyvalue) =>
               if keep column then matches ++ [column] else matches)
            columns acc
  = acc ++ filter keep columns.
Proof.
  revert acc. induction columns as [|c columns IH]; intros acc; simpl.
  - rewrite app_nil_r. reflexivity.
  - rewrite IH. destruct (keep c); [|reflexivity].
    rewrite <- app_assoc. reflexivity.
Qed.

Lemma find_columns_filter columns keywords :
  find_columns_with_keywords columns keywords
  = filter (keyword_hit keywords) columns.
Proof.
  unfold find_columns_with_keywords.
  rewrite (find_columns_fold
             (fun column =>
                existsb (fun keyword =>
                           negb (is_empty keyword)
                           && Str.contains (normalize_column_name column)
                                           keyword)
                        (map normalize_column_name keywords))).
  simpl. apply filter_ext. intros column. unfold keyword_hit.
  induction keywords as [|k keywords IH]; simpl; [reflexivity|].
  rewrite IH. reflexivity.
Qed.

Lemma keyword_hit_spec keywords column :
  keyword_hit keywords column = true
  <-> exists keyword,
      In keyword keywords
      /\ normalize_column_name keyword <> []
      /\ substring (normalize_column_name keyword)
                   (normalize_column_name column).
Proof.
  unfold keyword_hit. rewrite existsb_exists. split.
  - intros [k [Hk H]]. apply andb_true_iff in H. destruct H as [H1 H2].
    exists k. split; [exact Hk|]. split.
    + intros E. rewrite E in H1. discriminate.
    + apply contains_spec, H2.
  - intros [k [Hk [H1 H2]]]. exists k. split; [exact Hk|].
    apply andb_true_iff. split.
    + destruct (normalize_column_name k); [contradiction|reflexivity].
    + apply contains_spec, H2.
Qed.

End Keywords.

(** C8: [find_columns_with_keywords] keeps, in their order and each where
    it stood, exactly the columns whose normalized name contains some
    keyword whose normalized form is not empty; a column is listed once
    however many keywords it contains, and a keyword that normalizes to
    the empty string adds no column. *)
Theorem find_columns_with_keywords_spec
        (U : Unicode) (columns keywords : list pyvalue) :
  find_columns_with_keywords columns keywords
  = filter (keyword_hit keywords) columns
  /\ (forall column,
         keyword_hit keywords column = true
         <-> exists keyword,
             In keyword keywords
             /\ normalize_column_name keyword <> []
             /\ substring (normalize_column_name keyword)
                          (normalize_column_name column))
  /\ (List.length (find_columns_with_keywords columns keywords)
      <= List.length columns)%nat
  /\ (NoDup columns ->
      NoDup (find_columns_with_keywords columns keywords))
  /\ (forall keyword,
         normalize_column_name keyword = [] ->
         find_columns_with_keywords columns (keyword :: keywords)
         = find_columns_with_keywords columns keywords).
Proof.
  split; [|split; [|split; [|split]]].
  - apply find_columns_filter.
  - intros column. apply keyword_hit_spec.
  - rewrite find_columns_filter. apply filter_length_le.
  - intros H. rewrite find_columns_filter. apply NoDup_filter, H.
  - intros keyword E. rewrite !find_columns_filter. apply filter_ext.
    intros column. unfold keyword_hit. simpl. rewrite E. reflexivity.
Qed.

(** C9: a column is monetary exactly when its normalized name is one of
    the target phrases; "Monto Neto de Operacion" is, with or without
    its accent, and "valor de compra extra" is not, although its name
    contains "valor de compra". *)
Theorem is_money_column_exact :
  (forall (U : Unicode) (col : pyvalue),
      is_money_column col = true
      <-> In (normalize_column_name col) money_col_targets)
  /\ is_money_column (PyStr (py "Monto Neto de Operacion")) = true
  /\ is_money_column (PyStr (py "Monto Neto de Operación")) = true
  /\ is_money_column (PyStr (py "valor de compra extra")) = false
  /\ substring (py "valor de compra")
               (normalize_column_name (PyStr (py "valor de compra extra"))).
Proof.
  split; [|split; [|split; [|split]]].
  - intros U col. unfold is_money_column. rewrite existsb_exists. split.
    + intros [t [Ht E]]. apply pystr_eqb_eq in E. rewrite E. exact Ht.
    + intros H. exists (normalize_column_name col). split; [exact H|].
      apply pystr_eqb_eq. reflexivity.
  - vm_compute. reflexivity.
  - vm_compute. reflexivity.
  - vm_compute. reflexivity.
  - apply contains_spec. vm_compute. reflexivity.
Qed.

(** C10: the texts "inf" and "nan" contain no digit, yet
    [_parse_numeric_text] returns them as cleaned values,
    [is_numeric_like] holds of them, and [convert_numeric_text] returns
    the infinity and the NaN, which are not finite numbers. *)
Theorem non_finite_text_is_numeric_like :
  (forallb (fun c => negb (Float.is_digit c)) (py "inf") = true
   /\ _parse_numeric_text (PyStr (py "inf")) = (Some (py "inf"), false)
   /\ is_numeric_like (PyStr (py "inf")) = true
   /\ convert_numeric_text (PyStr (py "inf")) = Ok (Some Float.inf)
   /\ Float.isfinite Float.inf = false)
  /\ (forallb (fun c => negb (Float.is_digit c)) (py "nan") = true
      /\ _parse_numeric_text (PyStr (py "nan")) = (Some (py "nan"), false)
      /\ is_numeric_like (PyStr (py "nan")) = true
      /\ convert_numeric_text (PyStr (py "nan")) = Ok (Some Float.nan)
      /\ Float.isfinite Float.nan = false).
Proof. repeat split; vm_compute; reflexivity. Qed.

(** ** Separators *)

Lemma py_dot : py "." = [46%N].
Proof. reflexivity. Qed.

Lemma count_app c a b :
  Str.count c (a ++ b) = (Str.count c a + Str.count c b)%nat.
Proof. unfold Str.count. rewrite filter_app, length_app. reflexivity. Qed.

Lemma count_notin c s : ~ In c s -> Str.count c s = 0%nat.
Proof.
  unfold Str.count. induction s as [|d s IH]; simpl; [reflexivity|].
  intros H. destruct (N.eqb_spec c d) as [->|_].
  - exfalso. apply H. left. reflexivity.
  - apply IH. intros H'. apply H. right. exact H'.
Qed.

Lemma count_cons_same c s : Str.count c (c :: s) = S (Str.count c s).
Proof. unfold Str.count. simpl. rewrite N.eqb_refl. reflexivity. Qed.

Lemma count_pos c s : In c s -> (0 < Str.count c s)%nat.
Proof.
  intros H. apply in_split in H. destruct H as [a [b ->]].
  rewrite count_app, count_cons_same. lia.
Qed.

Lemma existsb_eqb_In c s : existsb (N.eqb c) s = true <-> In c s.
Proof.
  rewrite existsb_exists. split.
  - intros [x [Hx E]]. apply N.eqb_eq in E. subst. exact Hx.
  - intros H. exists c. split; [exact H | apply N.eqb_refl].
Qed.

Lemma existsb_eqb_notin c s : ~ In c s -> existsb (N.eqb c) s = false.
Proof.
  intros H. destruct (existsb (N.eqb c) s) eqn:E; [|reflexivity].
  exfalso. apply H, existsb_eqb_In, E.
Qed.

Lemma rfind_from_notin i c s : ~ In c s -> Str.rfind_from i c s = (-1)%Z.
Proof.
  revert i. induction s as [|d s IH]; intros i H; simpl; [reflexivity|].
  rewrite IH by (intros H'; apply H; right; exact H'). simpl.
  destruct (N.eqb_spec d c) as [->|_]; [|reflexivity].
  exfalso. apply H. left. reflexivity.
Qed.

Lemma rfind_from_range i c s :
  (0 <= i)%Z ->
  Str.rfind_from i c s = (-1)%Z
  \/ (i <= Str.rfind_from i c s < i + Z.of_nat (List.length s))%Z.
Proof.
  revert i. induction s as [|d s IH]; intros i Hi; [left; reflexivity|].
  cbn [Str.rfind_from List.length]. cbv zeta.
  destruct (IH (i + 1)%Z ltac:(lia)) as [E|E].
  - rewrite E. simpl. destruct (d =? c)%N; [right; lia | left; reflexivity].
  - destruct (Z.leb_spec 0 (Str.rfind_from (i + 1) c s)); [right; lia | lia].
Qed.

Lemma rfind_from_last i c a b :
  (0 <= i)%Z -> ~ In c b ->
  Str.rfind_from i c (a ++ c :: b) = (i + Z.of_nat (List.length a))%Z.
Proof.
  revert i. induction a as [|x a IH]; intros i Hi Hb.
  - cbn [app Str.rfind_from List.length]. cbv zeta.
    rewrite rfind_from_notin by exact Hb. simpl. rewrite N.eqb_refl. lia.
  - cbn [app Str.rfind_from List.length]. cbv zeta.
    rewrite IH by (lia || exact Hb).
    destruct (Z.leb_spec 0 (i + 1 + Z.of_nat (List.length a))); lia.
Qed.

Lemma rfind_from_before i d a r :
  (0 <= i)%Z -> ~ In d r ->
  Str.rfind_from i d (a ++ r) = Str.rfind_from i d a.
Proof.
  revert i. induction a as [|x a IH]; intros i Hi Hr.
  - simpl. apply rfind_from_notin, Hr.
  - cbn [app Str.rfind_from]. cbv zeta. rewrite IH by (lia || exact Hr).
    reflexivity.
Qed.

Lemma split_nonempty sep s : Str.split sep s <> [].
Proof.
  destruct s as [|c s]; simpl; [discriminate|].
  destruct (Str.split sep s); [discriminate|].
  destruct (c =? sep)%N; discriminate.
Qed.

Lemma split_app sep x y :
  Str.split sep (x ++ sep :: y) = Str.split sep x ++ Str.split sep y.
Proof.
  induction x as [|c x IH].
  - cbn [app Str.split]. rewrite N.eqb_refl.
    destruct (Str.split sep y) eqn:E; [|reflexivity].
    exfalso. exact (split_nonempty _ _ E).
  - cbn [app Str.split]. rewrite IH.
    destruct (Str.split sep x) as [|h t] eqn:E.
    + exfalso. exact (split_nonempty _ _ E).
    + simpl. destruct (c =? sep)%N; reflexivity.
Qed.

Lemma split_notin sep s : ~ In sep s -> Str.split sep s = [s].
Proof.
  induction s as [|c s IH]; intros H; [reflexivity|].
  cbn [Str.split]. rewrite IH by (intros H'; apply H; right; exact H').
  destruct (N.eqb_spec c sep) as [->|_]; [|reflexivity].
  exfalso. apply H. left. reflexivity.
Qed.

Lemma join_split sep s :
  Str.join (Str.split sep s) = filter (fun c => negb (c =? sep)%N) s.
Proof.
  unfold Str.join. induction s as [|c s IH]; [reflexivity|].
  cbn [Str.split filter]. destruct (Str.split sep s) as [|h t] eqn:E.
  - exfalso. exact (split_nonempty _ _ E).
  - destruct (c =? sep)%N; simpl in *; rewrite <- IH; reflexivity.
Qed.

(** All the dots of [x] are dropped when a last dot follows. *)
Lemma collapse_dots_last x y :
  ~ In 46%N y ->
  collapse_dots (x ++ 46%N :: y)
  = filter (fun c => negb (c =? 46)%N) x ++ 46%N :: y.
Proof.
  intros Hy. unfold collapse_dots.
  rewrite count_app, count_cons_same, (@count_notin 46%N y Hy).
  destruct (1 <? Str.count 46%N x + 1)%nat eqn:E.
  - rewrite split_app, (@split_notin 46%N y Hy), removelast_last, last_last.
    rewrite join_split, py_dot. reflexivity.
  - apply Nat.ltb_ge in E. rewrite filter_id; [reflexivity|].
    intros c Hc. destruct (N.eqb_spec c 46%N) as [->|_]; [|reflexivity].
    apply count_pos in Hc. lia.
Qed.

Lemma collapse_dots_none s : ~ In 46%N s -> collapse_dots s = s.
Proof.
  intros H. unfold collapse_dots. rewrite count_notin by exact H. reflexivity.
Qed.

Lemma not_sep_notin s c :
  is_sep c = true -> Forall (fun d => is_sep d = false) s -> ~ In c s.
Proof.
  intros Hc Hs Hin. rewrite Forall_forall in Hs. apply Hs in Hin. congruence.
Qed.

Lemma filter_filter {A} (f g : A -> bool) l :
  filter f (filter g l) = filter (fun x => g x && f x) l.
Proof.
  induction l as [|a l IH]; simpl; [reflexivity|].
  destruct (g a); simpl; [|exact IH]. destruct (f a); rewrite IH; reflexivity.
Qed.

Lemma filter_map_comma_dot a :
  filter (fun c => negb (c =? 46)%N)
         (map (fun c => if (c =? 44)%N then 46%N else c)
              (filter (fun c => negb (c =? 46)%N) a))
  = filter (fun c => negb (is_sep c)) a.
Proof.
  unfold is_sep. induction a as [|c a IH]; simpl; [reflexivity|].
  destruct (N.eqb_spec c 46%N) as [->|H46]; simpl; [exact IH|].
  destruct (N.eqb_spec c 44%N) as [->|H44]; simpl; [exact IH|].
  destruct (N.eqb_spec c 46%N) as [E|_]; [contradiction|]. simpl.
  rewrite IH. reflexivity.
Qed.

Lemma replace_app old new a b :
  Str.replace old new (a ++ b) = Str.replace old new a ++ Str.replace old new b.
Proof. unfold Str.replace. apply flat_map_app. Qed.

Lemma replace_cons_same old new s :
  Str.replace old new (old :: s) = new ++ Str.replace old new s.
Proof. unfold Str.replace. simpl. rewrite N.eqb_refl. reflexivity. Qed.

Lemma replace_cons_other old new c s :
  c <> old -> Str.replace old new (c :: s) = c :: Str.replace old new s.
Proof.
  intros H. unfold Str.replace. simpl.
  destruct (N.eqb_spec c old) as [E|_]; [contradiction | reflexivity].
Qed.

Lemma replace_notin old new s : ~ In old s -> Str.replace old new s = s.
Proof.
  induction s as [|c s IH]; intros H; [reflexivity|].
  rewrite replace_cons_other by (intros E; apply H; left; exact E).
  rewrite IH by (intros H'; apply H; right; exact H'). reflexivity.
Qed.

Lemma comma_lt_dot a b :
  ~ In 46%N b -> ~ In 44%N b ->
  (Str.rfind 44%N (a ++ 46%N :: b) <? Str.rfind 46%N (a ++ 46%N :: b))%Z
  = true.
Proof.
  intros Hb46 Hb44. unfold Str.rfind.
  rewrite (@rfind_from_last 0%Z 46%N a b (Z.le_refl 0) Hb46).
  assert (H44 : ~ In 44%N (46%N :: b))
    by (intros [H|H]; [discriminate | exact (Hb44 H)]).
  rewrite (@rfind_from_before 0%Z 44%N a (46%N :: b) (Z.le_refl 0) H44).
  apply Z.ltb_lt.
  destruct (@rfind_from_range 0%Z 44%N a (Z.le_refl 0)); lia.
Qed.

Lemma dot_lt_comma a b :
  ~ In 46%N b -> ~ In 44%N b ->
  (Str.rfind 44%N (a ++ 44%N :: b) <? Str.rfind 46%N (a ++ 44%N :: b))%Z
  = false.
Proof.
  intros Hb46 Hb44. unfold Str.rfind.
  rewrite (@rfind_from_last 0%Z 44%N a b (Z.le_refl 0) Hb44).
  assert (H46 : ~ In 46%N (44%N :: b))
    by (intros [H|H]; [discriminate | exact (Hb46 H)]).
  rewrite (@rfind_from_before 0%Z 46%N a (44%N :: b) (Z.le_refl 0) H46).
  apply Z.ltb_ge.
  destruct (@rfind_from_range 0%Z 46%N a (Z.le_refl 0)); lia.
Qed.

Lemma delete_both a :
  filter (fun c => negb (c =? 46)%N) (Str.replace 44%N [] a)
  = filter (fun c => negb (is_sep c)) a.
Proof.
  rewrite replace_delete. unfold is_sep.
  induction a as [|c a IH]; simpl; [reflexivity|].
  destruct (c =? 44)%N eqn:E1; destruct (c =? 46)%N eqn:E2; simpl;
    rewrite ?E1, ?E2; simpl; rewrite ?IH; reflexivity.
Qed.

Lemma delete_dot_then_comma_to_dot a :
  filter (fun c => negb (c =? 46)%N)
         (Str.replace 44%N [46%N] (Str.replace 46%N [] a))
  = filter (fun c => negb (is_sep c)) a.
Proof.
  rewrite replace_delete, replace_char. apply filter_map_comma_dot.
Qed.

(** When both marks occur, the rightmost one becomes the decimal point and
    every mark before it is dropped. *)
Lemma separators_both a sep b :
  is_sep sep = true ->
  Forall (fun c => is_sep c = false) b ->
  In 46%N (a ++ sep :: b) -> In 44%N (a ++ sep :: b) ->
  collapse_dots (resolve_separators (a ++ sep :: b))
  = filter (fun c => negb (is_sep c)) a ++ 46%N :: b.
Proof.
  intros Hsep Hb Hdot Hcomma.
  assert (Hb46 : ~ In 46%N b) by (apply not_sep_notin; [reflexivity|exact Hb]).
  assert (Hb44 : ~ In 44%N b) by (apply not_sep_notin; [reflexivity|exact Hb]).
  unfold resolve_separators.
  rewrite py_dot. change (py ",") with [44%N]. rewrite !contains_char.
  rewrite (proj2 (existsb_eqb_In _ _) Hdot), (proj2 (existsb_eqb_In _ _) Hcomma).
  cbn [andb].
  unfold is_sep in Hsep. apply orb_true_iff in Hsep.
  destruct Hsep as [E|E]; apply N.eqb_eq in E; subst sep.
  - (* the last mark is a dot *)
    rewrite comma_lt_dot by assumption.
    rewrite replace_app, replace_cons_other by discriminate.
    rewrite (@replace_notin 44%N [] b Hb44).
    rewrite collapse_dots_last by exact Hb46.
    rewrite delete_both. reflexivity.
  - (* the last mark is a comma *)
    rewrite dot_lt_comma by assumption.
    rewrite (replace_app 46%N), (@replace_cons_other 46%N [] 44%N)
      by discriminate.
    rewrite (@replace_notin 46%N [] b Hb46).
    rewrite (replace_app 44%N), replace_cons_same.
    rewrite (@replace_notin 44%N [46%N] b Hb44).
    cbn [app]. rewrite collapse_dots_last by exact Hb46.
    rewrite delete_dot_then_comma_to_dot. reflexivity.
Qed.

(** A single comma and no dot: the comma is the decimal point when at
    most two characters follow it, and is dropped otherwise. *)
Lemma separators_single_comma a b :
  Forall (fun c => is_sep c = false) a ->
  Forall (fun c => is_sep c = false) b ->
  collapse_dots (resolve_separators (a ++ 44%N :: b))
  = if (List.length b <=? 2)%nat then a ++ 46%N :: b else a ++ b.
Proof.
  intros Ha Hb.
  assert (Ha46 : ~ In 46%N a) by (apply not_sep_notin; [reflexivity|exact Ha]).
  assert (Ha44 : ~ In 44%N a) by (apply not_sep_notin; [reflexivity|exact Ha]).
  assert (Hb46 : ~ In 46%N b) by (apply not_sep_notin; [reflexivity|exact Hb]).
  assert (Hb44 : ~ In 44%N b) by (apply not_sep_notin; [reflexivity|exact Hb]).
  assert (Hdot : ~ In 46%N (a ++ 44%N :: b)).
  { intros H. apply in_app_or in H. destruct H as [H|[H|H]];
      [exact (Ha46 H) | discriminate | exact (Hb46 H)]. }
  unfold resolve_separators.
  rewrite py_dot. change (py ",") with [44%N]. rewrite !contains_char.
  rewrite (@existsb_eqb_notin 46%N _ Hdot). cbn [andb].
  rewrite count_app, count_cons_same, (@count_notin 44%N a Ha44),
    (@count_notin 44%N b Hb44).
  cbn [Nat.add Nat.eqb andb].
  rewrite split_app, (@split_notin 44%N a Ha44), (@split_notin 44%N b Hb44).
  cbn [app nth].
  rewrite !replace_app, !replace_cons_same.
  rewrite !(@replace_notin 44%N _ a Ha44), !(@replace_notin 44%N _ b Hb44).
  cbn [app].
  destruct (List.length b <=? 2)%nat.
  - rewrite collapse_dots_last by exact Hb46.
    rewrite filter_id; [reflexivity|]. intros c Hc.
    destruct (N.eqb_spec c 46%N) as [->|_]; [contradiction | reflexivity].
  - apply collapse_dots_none.
    intros H. apply in_app_or in H. destruct H as [H|H];
      [exact (Ha46 H) | exact (Hb46 H)].
Qed.

(** The cleaned value of a string is what the separator rules and the
    removal of the apostrophes make of [before_separators]. *)
Lemma parse_text_cleaned (U : Unicode) text cleaned is_negative :
  _parse_numeric_text (PyStr text) = (Some cleaned, is_negative) ->
  cleaned
  = Str.replace 39%N []
      (collapse_dots (resolve_separators (before_separators text))).
Proof.
  unfold _parse_numeric_text, before_separators, _coerce_to_string.
  cbn [str]. destruct (Str.strip isspace text) as [|c t] eqn:E.
  - discriminate.
  - destruct (detect_sign _) as [cl neg]. cbn [fst].
    destruct (Float.of_str _); [|discriminate].
    intros H. injection H as <- _. reflexivity.
Qed.

(** C1: where both [.] and [,] occur, the rightmost of them is the decimal
    point: it is written [.] and every other mark is removed; where a
    single [,] occurs and no [.], the comma is the decimal point exactly
    when at most two characters follow it, and is removed otherwise.  The
    cleaned value [_parse_numeric_text] returns for a string is obtained
    in this way, and the four examples convert as stated. *)
Theorem decimal_separator_resolution :
  (forall a sep b,
      is_sep sep = true ->
      Forall (fun c => is_sep c = false) b ->
      In 46%N (a ++ sep :: b) -> In 44%N (a ++ sep :: b) ->
      collapse_dots (resolve_separators (a ++ sep :: b))
      = filter (fun c => negb (is_sep c)) a ++ 46%N :: b)
  /\ (forall a b,
         Forall (fun c => is_sep c = false) a ->
         Forall (fun c => is_sep c = false) b ->
         collapse_dots (resolve_separators (a ++ 44%N :: b))
         = if (List.length b <=? 2)%nat then a ++ 46%N :: b else a ++ b)
  /\ (forall (U : Unicode) text cleaned is_negative,
         _parse_numeric_text (PyStr text) = (Some cleaned, is_negative) ->
         cleaned
         = Str.replace 39%N []
             (collapse_dots (resolve_separators (before_separators text))))
  /\ convert_numeric_text (PyStr (py "1.234,56"))
     = Ok (Some (Float.of_decimal false 123456 (-2)))
  /\ convert_numeric_text (PyStr (py "1,234.56"))
     = Ok (Some (Float.of_decimal false 123456 (-2)))
  /\ convert_numeric_text (PyStr (py "1,23"))
     = Ok (Some (Float.of_decimal false 123 (-2)))
  /\ convert_numeric_text (PyStr (py "1,234"))
     = Ok (Some (Float.of_decimal false 1234 0)).
Proof.
  split; [|split; [|split; [|split; [|split; [|split]]]]].
  - intros a sep b. apply separators_both.
  - intros a b. apply separators_single_comma.
  - intros U text cleaned is_negative. apply parse_text_cleaned.
  - vm_compute. reflexivity.
  - vm_compute. reflexivity.
  - vm_compute. reflexivity.
  - vm_compute. reflexivity.
Qed.

(** ** Signs and currency symbols *)

Lemma startswith_char s c :
  Str.startswith s [c] = match s with d :: _ => (c =? d)%N | [] => false end.
Proof.
  destruct s as [|d s]; [reflexivity|]. cbn [Str.startswith].
  destruct s; apply andb_true_r.
Qed.

Lemma endswith_char s c :
  Str.endswith s [c]
  = match rev s with d :: _ => (c =? d)%N | [] => false end.
Proof. unfold Str.endswith. cbn [rev app]. apply startswith_char. Qed.

Lemma endswith_last s c d : Str.endswith (s ++ [d]) [c] = (c =? d)%N.
Proof. rewrite endswith_char, rev_app_distr. reflexivity. Qed.

Lemma detect_sign_after_parens s :
  detect_sign s
  = after_parens
      (if Str.startswith s [40%N] && Str.endswith s [41%N]
       then (Str.slice_1_m1 s, true) else (s, false)).
Proof.
  unfold detect_sign, after_parens.
  change (py "(") with [40%N]. change (py ")") with [41%N].
  change (py "-") with [45%N]. change (py "+") with [43%N].
  destruct (Str.startswith s [40%N] && Str.endswith s [41%N]); reflexivity.
Qed.

Lemma unsigned_tests d :
  unsigned d ->
  Str.endswith d [45%N] = false
  /\ Str.startswith d [45%N] = false
  /\ Str.startswith d [43%N] = false.
Proof.
  intros [H1 H2]. rewrite endswith_char, !startswith_char. repeat split.
  - destruct (rev d) as [|c r]; [reflexivity|]. apply N.eqb_neq. congruence.
  - destruct d as [|c r]; [reflexivity|]. apply N.eqb_neq.
    destruct H1. congruence.
  - destruct d as [|c r]; [reflexivity|]. apply N.eqb_neq.
    destruct H1. congruence.
Qed.

Lemma after_parens_unsigned d n :
  unsigned d -> after_parens (d, n) = (despace d, n).
Proof.
  intros H. destruct (unsigned_tests H) as [E1 [E2 E3]].
  unfold after_parens. rewrite E1, E2, E3, replace_delete. reflexivity.
Qed.

Lemma after_parens_trailing_minus d n :
  unsigned d -> after_parens (d ++ [45%N], n) = (despace d, true).
Proof.
  intros H. destruct (unsigned_tests H) as [E1 [E2 E3]].
  unfold after_parens. rewrite endswith_last. cbn [N.eqb Pos.eqb].
  unfold Str.drop_last. rewrite removelast_last.
  rewrite E2, E3, replace_delete. reflexivity.
Qed.

Lemma after_parens_leading_minus d n :
  unsigned d -> after_parens (45%N :: d, n) = (despace d, true).
Proof.
  intros H. destruct (unsigned_tests H) as [E1 [E2 E3]].
  unfold after_parens. destruct d as [|c r].
  - reflexivity.
  - assert (E : Str.endswith (45%N :: c :: r) [45%N] = false).
    { rewrite endswith_char in *. cbn [rev] in *.
      destruct (rev r ++ [c]) as [|x y] eqn:Er.
      - destruct (rev r); discriminate.
      - cbn [app]. exact E1. }
    rewrite E. rewrite startswith_char. cbn [N.eqb Pos.eqb].
    unfold Str.drop_first. cbn [tl]. rewrite E3, replace_delete. reflexivity.
Qed.

Lemma after_parens_both_minus d n :
  unsigned d -> after_parens (45%N :: d ++ [45%N], n) = (despace d, true).
Proof.
  intros H. destruct (unsigned_tests H) as [E1 [E2 E3]].
  unfold after_parens.
  change (45%N :: d ++ [45%N]) with ((45%N :: d) ++ [45%N]).
  rewrite endswith_last. cbn [N.eqb Pos.eqb].
  unfold Str.drop_last. rewrite removelast_last.
  rewrite startswith_char. cbn [N.eqb Pos.eqb].
  unfold Str.drop_first. cbn [tl]. rewrite E3, replace_delete. reflexivity.
Qed.

Lemma after_parens_leading_plus d n :
  unsigned d -> after_parens (43%N :: d, n) = (despace d, n).
Proof.
  intros H. destruct (unsigned_tests H) as [E1 [E2 E3]].
  unfold after_parens.
  assert (E : Str.endswith (43%N :: d) [45%N] = false).
  { rewrite endswith_char in *. cbn [rev].
    destruct (rev d) as [|x y]; [reflexivity | exact E1]. }
  rewrite E. repeat (rewrite startswith_char; cbn [N.eqb Pos.eqb]).
  unfold Str.drop_first. cbn [tl]. rewrite replace_delete. reflexivity.
Qed.

Lemma paren_test_true d :
  Str.startswith (40%N :: d ++ [41%N]) [40%N]
  && Str.endswith (40%N :: d ++ [41%N]) [41%N] = true.
Proof.
  rewrite startswith_char.
  change (40%N :: d ++ [41%N]) with ((40%N :: d) ++ [41%N]).
  rewrite endswith_last. reflexivity.
Qed.

Lemma paren_test_parenthesized s :
  Str.startswith s [40%N] && Str.endswith s [41%N] = true ->
  parenthesized s.
Proof.
  rewrite startswith_char, endswith_char. intros H.
  apply andb_true_iff in H. destruct H as [H1 H2].
  destruct s as [|c s]; [discriminate|]. apply N.eqb_eq in H1. subst c.
  cbn [rev] in H2. destruct (rev s) as [|x r] eqn:E.
  - discriminate.
  - cbn [app] in H2. apply N.eqb_eq in H2. subst x.
    exists (rev r). rewrite <- (rev_involutive s), E. reflexivity.
Qed.

Lemma paren_test_false s :
  ~ parenthesized s ->
  Str.startswith s [40%N] && Str.endswith s [41%N] = false.
Proof.
  intros H.
  destruct (Str.startswith s [40%N] && Str.endswith s [41%N]) eqn:E;
    [|reflexivity].
  exfalso. apply H, paren_test_parenthesized, E.
Qed.

Lemma strip_currency_filter s :
  _strip_currency_symbols s = filter (fun c => negb (is_currency c)) s.
Proof.
  unfold _strip_currency_symbols, _CURRENCY_SYMBOLS. cbn [fold_left].
  rewrite !replace_delete, !filter_filter. apply filter_ext. intros c.
  unfold is_currency, _CURRENCY_SYMBOLS. cbn [existsb].
  repeat match goal with
         | |- context [(c =? ?k)%N] => destruct (c =? k)%N
         end; reflexivity.
Qed.

(** The flag [_parse_numeric_text] returns is the one [detect_sign]
    reads from [before_sign]. *)
Lemma parse_text_sign (U : Unicode) text cleaned is_negative :
  _parse_numeric_text (PyStr text) = (Some cleaned, is_negative) ->
  is_negative = snd (detect_sign (before_sign text)).
Proof.
  unfold _parse_numeric_text, before_sign, _coerce_to_string.
  cbn [str]. destruct (Str.strip isspace text) as [|c t] eqn:E.
  - discriminate.
  - destruct (detect_sign _) as [cl neg]. cbn [snd].
    destruct (Float.of_str _); [|discriminate].
    intros H. injection H as _ <-. reflexivity.
Qed.

(** C3: [detect_sign] examines, in this order, a pair of parentheses
    around the whole value, a trailing [-] and a leading [-]; each one
    found is consumed and sets the negative flag; a leading [+] is
    consumed and leaves the flag; the spaces are removed.  Parentheses
    that only appear once a [-] is removed are not consumed.  Every
    currency symbol is removed wherever it occurs, and the two examples
    convert as stated. *)
Theorem sign_detection (d : pystr) (H : unsigned d) :
  (~ parenthesized d -> detect_sign d = (despace d, false))
  /\ detect_sign (40%N :: d ++ [41%N]) = (despace d, true)
  /\ detect_sign (d ++ [45%N]) = (despace d, true)
  /\ detect_sign (45%N :: d) = (despace d, true)
  /\ detect_sign (43%N :: d) = (despace d, false)
  /\ detect_sign (40%N :: 45%N :: d ++ [45%N; 41%N]) = (despace d, true)
  /\ detect_sign (45%N :: 40%N :: d ++ [41%N])
     = (despace (40%N :: d ++ [41%N]), true)
  /\ (forall s,
         _strip_currency_symbols s = filter (fun c => negb (is_currency c)) s)
  /\ (forall (U : Unicode) text cleaned is_negative,
         _parse_numeric_text (PyStr text) = (Some cleaned, is_negative) ->
         is_negative = snd (detect_sign (before_sign text)))
  /\ convert_numeric_text (PyStr (py "(1.234,56)"))
     = Ok (Some (Float.of_decimal true 123456 (-2)))
  /\ convert_numeric_text (PyStr (py "€1.234,56"))
     = Ok (Some (Float.of_decimal false 123456 (-2))).
Proof.
  split; [|split; [|split; [|split; [|split; [|split; [|split;
    [|split; [|split; [|split]]]]]]]]].
  - intros Hp. rewrite detect_sign_after_parens, paren_test_false by exact Hp.
    apply after_parens_unsigned, H.
  - rewrite detect_sign_after_parens, paren_test_true.
    unfold Str.slice_1_m1. cbn [tl]. rewrite removelast_last.
    apply after_parens_unsigned, H.
  - rewrite detect_sign_after_parens.
    rewrite endswith_last. cbn [N.eqb Pos.eqb]. rewrite andb_false_r.
    apply after_parens_trailing_minus, H.
  - rewrite detect_sign_after_parens, startswith_char. cbn [N.eqb Pos.eqb andb].
    apply after_parens_leading_minus, H.
  - rewrite detect_sign_after_parens, startswith_char. cbn [N.eqb Pos.eqb andb].
    apply after_parens_leading_plus, H.
  - assert (E : 40%N :: 45%N :: d ++ [45%N; 41%N]
                = 40%N :: (45%N :: d ++ [45%N]) ++ [41%N])
      by (cbn [app]; rewrite <- app_assoc; reflexivity).
    rewrite E, detect_sign_after_parens, paren_test_true.
    unfold Str.slice_1_m1. cbn [tl]. rewrite removelast_last.
    apply after_parens_both_minus, H.
  - rewrite detect_sign_after_parens, startswith_char. cbn [N.eqb Pos.eqb andb].
    unfold after_parens.
    change (45%N :: 40%N :: d ++ [41%N]) with ((45%N :: 40%N :: d) ++ [41%N]).
    rewrite endswith_last. cbn [N.eqb Pos.eqb app].
    rewrite !startswith_char. cbn [N.eqb Pos.eqb].
    unfold Str.drop_first. cbn [tl]. rewrite startswith_char.
    cbn [N.eqb Pos.eqb]. rewrite replace_delete. reflexivity.
  - apply strip_currency_filter.
  - intros U text cleaned is_negative. apply parse_text_sign.
  - vm_compute. reflexivity.
  - vm_compute. reflexivity.
Qed.

Lemma sign_detection_witness :
  detect_sign (py "(1.234,56)") = (py "1.234,56", true).
Proof.
  assert (Hu : unsigned (py "1.234,56")).
  { split; cbn; [split|]; discriminate. }
  exact (proj1 (proj2 (sign_detection Hu))).
Defined.

(** ** The table converter *)

Lemma getitem_app_notin done rest c :
  ~ In c (map fst done) ->
  Pandas.getitem (done ++ rest) c = Pandas.getitem rest c.
Proof.
  induction done as [|[l s] done IH]; intros H; [reflexivity|].
  cbn [app Pandas.getitem]. destruct (pystr_eqb l c) eqn:E.
  - apply pystr_eqb_eq in E. exfalso. apply H. left. exact E.
  - apply IH. intros H'. apply H. right. exact H'.
Qed.

Lemma getitem_head c s rest : Pandas.getitem ((c, s) :: rest) c = Some s.
Proof.
  cbn [Pandas.getitem]. rewrite (proj2 (pystr_eqb_eq c c) eq_refl).
  reflexivity.
Qed.

Lemma setitem_app_notin done rest c s :
  ~ In c (map fst done) ->
  Pandas.setitem (done ++ rest) c s = done ++ Pandas.setitem rest c s.
Proof.
  induction done as [|[l s0] done IH]; intros H; [reflexivity|].
  cbn [app Pandas.setitem]. destruct (pystr_eqb l c) eqn:E.
  - apply pystr_eqb_eq in E. exfalso. apply H. left. exact E.
  - rewrite IH; [reflexivity|]. intros H'. apply H. right. exact H'.
Qed.

Lemma setitem_head c s0 s rest :
  Pandas.setitem ((c, s0) :: rest) c s = (c, s) :: rest.
Proof.
  cbn [Pandas.setitem]. rewrite (proj2 (pystr_eqb_eq c c) eq_refl).
  reflexivity.
Qed.

Lemma getitem_In df c s :
  NoDup (Pandas.columns df) -> In (c, s) df -> Pandas.getitem df c = Some s.
Proof.
  unfold Pandas.columns. induction df as [|[l s0] df IH]; intros Hn Hin.
  - destruct Hin.
  - cbn [map fst] in Hn. inversion Hn as [|? ? Hl Hn']; subst.
    destruct Hin as [E|Hin].
    + injection E as -> ->. apply getitem_head.
    + cbn [Pandas.getitem]. destruct (pystr_eqb l c) eqn:E.
      * apply pystr_eqb_eq in E. subst l. exfalso. apply Hl.
        apply (in_map fst) in Hin. exact Hin.
      * apply IH; assumption.
Qed.

Lemma getitem_Some_In df c s :
  Pandas.getitem df c = Some s -> In (c, s) df.
Proof.
  induction df as [|[l s0] df IH]; [discriminate|].
  cbn [Pandas.getitem]. destruct (pystr_eqb l c) eqn:E.
  - apply pystr_eqb_eq in E. subst l. intros H. injection H as ->.
    left. reflexivity.
  - intros H. right. apply IH, H.
Qed.

Lemma getitem_None df c :
  ~ In c (Pandas.columns df) -> Pandas.getitem df c = None.
Proof.
  intros H. destruct (Pandas.getitem df c) as [s|] eqn:E; [|reflexivity].
  exfalso. apply H. apply getitem_Some_In in E.
  apply (in_map fst) in E. exact E.
Qed.

Section Table.

Context {U : Unicode}.

Lemma cleaned_empty_of_non_null_empty series :
  is_empty (Pandas.dropna (series_values series)) = true ->
  is_empty (cleaned_non_null series) = true.
Proof.
  unfold cleaned_non_null.
  destruct (Pandas.dropna (series_values series)); [reflexivity|discriminate].
Qed.

(** The body of the loop converts the column or leaves the state, as
    [converts] says. *)
Lemma convert_column_spec df converted column series :
  Pandas.getitem df column = Some series ->
  convert_column (df, converted) column
  = if converts column series
    then (s <- converted_series series ;;
          Ok (Pandas.setitem df column s, converted ++ [column]))%result
    else Ok (df, converted).
Proof.
  intros Hget. unfold convert_column, converts, converted_series.
  rewrite Hget. fold (force_numeric column).
  fold (all_numeric_like series). unfold textual.
  destruct (Pandas.is_numeric_dtype series); [reflexivity|]. cbn [negb andb].
  destruct (force_numeric column) eqn:Ef.
  - cbn [orb negb andb]. rewrite !andb_false_r. cbn [orb].
    destruct (mapM convert_numeric_text (series_values series)); reflexivity.
  - cbn [orb negb].
    destruct (Pandas.is_object_dtype series || Pandas.is_string_dtype series);
      [|reflexivity].
    cbn [negb andb]. rewrite !andb_true_r.
    destruct (is_empty (Pandas.dropna (series_values series))) eqn:En.
    + rewrite (cleaned_empty_of_non_null_empty _ En). reflexivity.
    + destruct (is_empty (cleaned_non_null series)); [reflexivity|].
      cbn [negb andb]. destruct (all_numeric_like series); [|reflexivity].
      destruct (mapM convert_numeric_text (series_values series)); reflexivity.
Qed.

Lemma convert_loop rest :
  forall done converted,
    NoDup (map fst (done ++ rest)) ->
    for_each convert_column (map fst rest) (done ++ rest, converted)
    = (rest' <- mapM convert_entry rest ;;
       Ok (done ++ rest',
           converted
           ++ map fst (filter (fun e => converts (fst e) (snd e)) rest)))%result.
Proof.
  induction rest as [|[c s] rest IH]; intros done converted Hn.
  - cbn. rewrite !app_nil_r. reflexivity.
  - assert (Hc : ~ In c (map fst done)).
    { rewrite map_app in Hn. cbn [map fst] in Hn.
      apply NoDup_remove_2 in Hn. intros H. apply Hn, in_or_app.
      left. exact H. }
    cbn [map fst for_each mapM filter]. unfold bind at 1.
    rewrite (@convert_column_spec _ _ _ s)
      by (rewrite getitem_app_notin by exact Hc; apply getitem_head).
    unfold convert_entry at 1. cbn [fst snd].
    destruct (converts c s) eqn:Ec.
    + unfold converted_series.
      destruct (mapM convert_numeric_text (series_values s)) as [vs|e];
        [|reflexivity].
      cbn [bind]. rewrite setitem_app_notin by exact Hc.
      rewrite setitem_head.
      replace (done ++ (c, Pandas.to_numeric vs) :: rest)
        with ((done ++ [(c, Pandas.to_numeric vs)]) ++ rest)
        by (rewrite <- app_assoc; reflexivity).
      rewrite IH.
      * destruct (mapM convert_entry rest) as [rest'|e]; [|reflexivity].
        cbn [bind map fst]. rewrite <- !app_assoc. reflexivity.
      * rewrite <- app_assoc. cbn [app]. rewrite map_app in *.
        cbn [map fst] in *. exact Hn.
    + cbn [bind].
      replace (done ++ (c, s) :: rest) with ((done ++ [(c, s)]) ++ rest)
        by (rewrite <- app_assoc; reflexivity).
      rewrite IH.
      * destruct (mapM convert_entry rest) as [rest'|e]; [|reflexivity].
        cbn [bind]. rewrite <- !app_assoc. reflexivity.
      * rewrite <- app_assoc. exact Hn.
Qed.

(** The whole function, for a table with distinct labels: every column is
    converted or kept as [converts] says, and the report lists the
    converted ones in the order of the table. *)
Lemma convert_table_spec df :
  NoDup (Pandas.columns df) ->
  convert_text_columns_to_numbers df
  = (df' <- mapM convert_entry df ;;
     Ok (df', map fst (filter (fun e => converts (fst e) (snd e)) df)))%result.
Proof.
  intros Hn. unfold convert_text_columns_to_numbers, Pandas.columns.
  apply (convert_loop df [] [] Hn).
Qed.

End Table.

Lemma map_fst_filter {A B} (f : A * B -> bool) (g : A -> bool) l :
  (forall e, In e l -> f e = g (fst e)) ->
  map fst (filter f l) = filter g (map fst l).
Proof.
  induction l as [|e l IH]; intros H; [reflexivity|].
  cbn [filter map]. rewrite <- (H e) by (left; reflexivity).
  rewrite <- IH by (intros e' He'; apply H; right; exact He').
  destruct (f e); reflexivity.
Qed.

Section TableFacts.

Context {U : Unicode}.

Lemma convert_numeric_text_fits v :
  fits_float v = true -> exists o, convert_numeric_text v = Ok o.
Proof.
  destruct v as [|b|z|f|s|t]; cbn [fits_float convert_numeric_text].
  - intros _. exists None. reflexivity.
  - intros _. destruct (_parse_numeric_text (PyBool b)) as [[c|] n].
    + destruct (Float.of_str c); eexists; reflexivity.
    + eexists; reflexivity.
  - destruct (Float.of_int z) as [f|e]; [|discriminate].
    intros _. exists (Some f). reflexivity.
  - intros _. destruct (Float.isnan f); eexists; reflexivity.
  - intros _. destruct (_parse_numeric_text (PyStr s)) as [[c|] n].
    + destruct (Float.of_str c); eexists; reflexivity.
    + eexists; reflexivity.
  - intros _. destruct (_parse_numeric_text (PyObject t)) as [[c|] n].
    + destruct (Float.of_str c); eexists; reflexivity.
    + eexists; reflexivity.
Qed.

Lemma mapM_convert_fits vs :
  Forall (fun v => fits_float v = true) vs ->
  exists os, mapM convert_numeric_text vs = Ok os.
Proof.
  induction 1 as [|v vs Hv _ [os IH]]; [exists []; reflexivity|].
  destruct (@convert_numeric_text_fits v Hv) as [o Ho].
  exists (o :: os). cbn [mapM]. rewrite Ho, IH. reflexivity.
Qed.

Lemma convert_entry_fits e :
  Forall (fun v => fits_float v = true) (series_values (snd e)) ->
  exists e', convert_entry e = Ok e'.
Proof.
  intros H. unfold convert_entry, converted_series.
  destruct (converts (fst e) (snd e)); [|exists e; reflexivity].
  destruct (@mapM_convert_fits _ H) as [os ->]. eexists. reflexivity.
Qed.

Lemma mapM_entries_fits df :
  representable df -> exists df', mapM convert_entry df = Ok df'.
Proof.
  induction 1 as [|e df He _ [df' IH]]; [exists []; reflexivity|].
  destruct (@convert_entry_fits e He) as [e' He'].
  exists (e' :: df'). cbn [mapM]. rewrite He', IH. reflexivity.
Qed.

Lemma convert_entry_label e e' : convert_entry e = Ok e' -> fst e' = fst e.
Proof.
  unfold convert_entry. destruct (converts (fst e) (snd e)).
  - destruct (converted_series (snd e)); [|discriminate].
    intros H. injection H as <-. reflexivity.
  - intros H. injection H as <-. reflexivity.
Qed.

Lemma mapM_entries_columns df df' :
  mapM convert_entry df = Ok df' -> Pandas.columns df' = Pandas.columns df.
Proof.
  unfold Pandas.columns. revert df'.
  induction df as [|e df IH]; intros df'; cbn [mapM].
  - intros H. injection H as <-. reflexivity.
  - destruct (convert_entry e) as [e'|] eqn:Ee; [|discriminate].
    destruct (mapM convert_entry df) as [r|]; [|discriminate].
    cbn [bind]. intros H. injection H as <-. cbn [map].
    rewrite (@convert_entry_label e e' Ee), (IH r eq_refl). reflexivity.
Qed.

(** What the result holds under a label of the input. *)
Lemma mapM_entries_getitem df df' c s :
  mapM convert_entry df = Ok df' ->
  NoDup (Pandas.columns df) -> In (c, s) df ->
  exists s', convert_entry (c, s) = Ok (c, s')
             /\ Pandas.getitem df' c = Some s'.
Proof.
  intros Hm Hn Hin.
  assert (Hcols := @mapM_entries_columns df df' Hm).
  assert (Hn' : NoDup (Pandas.columns df')) by (rewrite Hcols; exact Hn).
  revert df' Hm Hcols Hn'. induction df as [|e df IH]; [destruct Hin|].
  intros df'. cbn [mapM].
  destruct (convert_entry e) as [e'|] eqn:Ee; [|discriminate].
  destruct (mapM convert_entry df) as [r|] eqn:Er; [|discriminate].
  cbn [bind]. intros H Hcols Hn'. injection H as <-.
  destruct Hin as [->|Hin].
  - assert (El := @convert_entry_label _ e' Ee). cbn [fst] in El.
    destruct e' as [c' s']. cbn [fst] in El. subst c'.
    exists s'. split; [exact Ee | apply getitem_head].
  - inversion Hn as [|? ? Hl Hn0]; subst.
    inversion Hn' as [|? ? Hl' Hn0']; subst.
    destruct (IH Hn0 Hin r eq_refl (@mapM_entries_columns df r Er) Hn0')
      as [s' [H1 H2]].
    exists s'. split; [exact H1|].
    apply getitem_In; [exact Hn' | right; apply getitem_Some_In, H2].
Qed.

Lemma converted_series_numeric series s' :
  converted_series series = Ok s' -> Pandas.is_numeric_dtype s' = true.
Proof.
  unfold converted_series.
  destruct (mapM convert_numeric_text (series_values series)); [|discriminate].
  intros H. injection H as <-. reflexivity.
Qed.

Lemma converts_not_numeric c s :
  converts c s = true -> Pandas.is_numeric_dtype s = false.
Proof.
  unfold converts. intros H. apply andb_true_iff in H. destruct H as [H _].
  apply negb_true_iff, H.
Qed.

(** A label of the input names a changed column exactly when the column
    is converted. *)
Lemma same_column_converts df df' c s :
  mapM convert_entry df = Ok df' ->
  NoDup (Pandas.columns df) -> In (c, s) df ->
  same_column df df' c = negb (converts c s).
Proof.
  intros Hm Hn Hin.
  destruct (@mapM_entries_getitem df df' c s Hm Hn Hin) as [s' [He Hg]].
  unfold same_column. rewrite (@getitem_In df c s Hn Hin), Hg.
  unfold convert_entry in He. cbn [fst snd] in He.
  destruct (converts c s) eqn:Ec.
  - destruct (converted_series s) as [t|] eqn:Et; [|discriminate].
    injection He as <-.
    destruct (Series_eq_dec s t) as [E|_]; [|reflexivity].
    exfalso. subst t. apply converted_series_numeric in Et.
    apply converts_not_numeric in Ec. congruence.
  - injection He as <-.
    destruct (Series_eq_dec s s) as [_|E]; [reflexivity | contradiction].
Qed.

Lemma report_is_changed df df' :
  mapM convert_entry df = Ok df' ->
  NoDup (Pandas.columns df) ->
  map fst (filter (fun e => converts (fst e) (snd e)) df)
  = filter (fun c => negb (same_column df df' c)) (Pandas.columns df).
Proof.
  intros Hm Hn. unfold Pandas.columns. apply map_fst_filter.
  intros [c s] Hin. cbn [fst snd].
  rewrite (@same_column_converts df df' c s Hm Hn Hin), negb_involutive.
  reflexivity.
Qed.

Lemma convert_table_ok df df' report :
  NoDup (Pandas.columns df) ->
  convert_text_columns_to_numbers df = Ok (df', report) ->
  mapM convert_entry df = Ok df'
  /\ report = map fst (filter (fun e => converts (fst e) (snd e)) df).
Proof.
  intros Hn. rewrite (@convert_table_spec _ df Hn).
  destruct (mapM convert_entry df) as [r|]; [|discriminate].
  cbn [bind]. intros H. injection H as <- <-. split; reflexivity.
Qed.

Lemma in_report df c :
  In c (map fst (filter (fun e => converts (fst e) (snd e)) df))
  <-> exists s, In (c, s) df /\ converts c s = true.
Proof.
  rewrite in_map_iff. split.
  - intros [[c' s] [E H]]. cbn [fst] in E. subst c'.
    apply filter_In in H. exists s. exact H.
  - intros [s [H1 H2]]. exists (c, s). split; [reflexivity|].
    apply filter_In. split; assumption.
Qed.

End TableFacts.

(** ** The claims on the table converter *)

(** C7: for a table with distinct labels, the report is the list of the
    labels whose column differs between the input and the result, in the
    order of the table; a column whose label is not in the report is
    returned as it was, and one whose label is in the report is replaced
    by its numeric conversion.  The labels of the table do not change,
    and a result is returned whenever no cell is an integer beyond the
    range of floats. *)
Theorem report_lists_replaced_columns
        (U : Unicode) (df : DataFrame) (Hn : NoDup (Pandas.columns df)) :
  (representable df ->
   exists df' report, convert_text_columns_to_numbers df = Ok (df', report))
  /\ (forall df' report,
         convert_text_columns_to_numbers df = Ok (df', report) ->
         Pandas.columns df' = Pandas.columns df
         /\ report
            = filter (fun c => negb (same_column df df' c)) (Pandas.columns df)
         /\ (forall c, ~ In c report ->
                       Pandas.getitem df' c = Pandas.getitem df c)
         /\ (forall c, In c report ->
                       exists s s',
                         Pandas.getitem df c = Some s
                         /\ converted_series s = Ok s'
                         /\ Pandas.getitem df' c = Some s')).
Proof.
  split.
  - intros Hr. rewrite (@convert_table_spec _ df Hn).
    destruct (@mapM_entries_fits _ df Hr) as [df' ->].
    eexists. eexists. reflexivity.
  - intros df' report Hok.
    destruct (@convert_table_ok _ df df' report Hn Hok) as [Hm ->].
    assert (Hcols := @mapM_entries_columns _ df df' Hm).
    split; [exact Hcols|]. split; [apply report_is_changed; assumption|].
    split.
    + intros c Hc. destruct (in_dec (list_eq_dec N.eq_dec) c (Pandas.columns df))
        as [Hin|Hout].
      * unfold Pandas.columns in Hin. apply in_map_iff in Hin.
        destruct Hin as [[c' s] [E Hin]]. cbn [fst] in E. subst c'.
        destruct (@mapM_entries_getitem _ df df' c s Hm Hn Hin) as [s' [He Hg]].
        rewrite Hg, (@getitem_In df c s Hn Hin).
        unfold convert_entry in He. cbn [fst snd] in He.
        destruct (converts c s) eqn:Ec.
        -- exfalso. apply Hc, in_report. exists s. split; assumption.
        -- injection He as <-. reflexivity.
      * rewrite (@getitem_None df c Hout). apply getitem_None.
        rewrite Hcols. exact Hout.
    + intros c Hc. apply in_report in Hc. destruct Hc as [s [Hin Ec]].
      destruct (@mapM_entries_getitem _ df df' c s Hm Hn Hin) as [s' [He Hg]].
      exists s, s'. split; [apply getitem_In; assumption|].
      split; [|exact Hg].
      unfold convert_entry in He. cbn [fst snd] in He. rewrite Ec in He.
      destruct (converted_series s) as [t|]; [|discriminate].
      injection He as <-. reflexivity.
Qed.

Lemma report_lists_replaced_columns_witness :
  exists df' report,
    convert_text_columns_to_numbers
      [object_column "Operacion ID" id_cells; object_column "monto" mixed_cells]
    = Ok (df', report).
Proof.
  assert (Hn : NoDup (Pandas.columns
                        [object_column "Operacion ID" id_cells;
                         object_column "monto" mixed_cells])).
  { constructor; [|constructor; [intros []|constructor]].
    intros [H|[]]. vm_compute in H. discriminate. }
  apply (proj1 (@report_lists_replaced_columns ucd _ Hn)).
  repeat constructor.
Defined.

Lemma all_numeric_like_false (U : Unicode) s :
  all_numeric_like s = false
  <-> exists text, In text (cleaned_non_null s)
                   /\ is_numeric_like (PyStr text) = false.
Proof.
  unfold all_numeric_like. split.
  - induction (cleaned_non_null s) as [|t l IH]; cbn [forallb]; [discriminate|].
    destruct (is_numeric_like (PyStr t)) eqn:E.
    + cbn [andb]. intros H. destruct (IH H) as [x [H1 H2]].
      exists x. split; [right; exact H1 | exact H2].
    + intros _. exists t. split; [left; reflexivity | exact E].
  - intros [t [H1 H2]].
    destruct (forallb _ (cleaned_non_null s)) eqn:E; [|reflexivity].
    rewrite forallb_forall in E. rewrite (E t H1) in H2. discriminate.
Qed.

Lemma ascii_text (s : pystr) :
  forallb (fun c => (c <? 128)%N) s = true -> Forall is_ascii s.
Proof.
  rewrite forallb_forall, Forall_forall. intros H c Hc.
  apply N.ltb_lt, H, Hc.
Qed.

Lemma composite_below l bound b m :
  forallb (fun e => (bound <=? snd (snd e))%N) l = true ->
  (m < bound)%N -> UCD.composite b m l = None.
Proof.
  intros Hl Hm. induction l as [|[c [b' m']] l IH]; [reflexivity|].
  cbn [forallb snd] in Hl. apply andb_true_iff in Hl. destruct Hl as [H1 H2].
  cbn [UCD.composite]. apply N.leb_le in H1.
  replace (m =? m')%N with false by (symmetry; apply N.eqb_neq; lia).
  rewrite andb_false_r. apply IH, H2.
Qed.

Lemma compose_run_ascii s : forall st,
  Forall is_ascii s -> UCD.compose_run st [] s = st :: s.
Proof.
  induction s as [|c r IH]; intros st Hs; [reflexivity|].
  inversion Hs as [|? ? Hc Hr]; subst. cbn [UCD.compose_run rev].
  rewrite (@composite_below UCD.canonical 128%N st c) by (reflexivity || exact Hc).
  rewrite (@ucd_ccc_ascii _ Hc). cbn [N.eqb app]. rewrite (IH c Hr). reflexivity.
Qed.

(** The excerpt leaves ASCII text as it is under NFKC. *)
Lemma ucd_nfkc_ascii s : Forall is_ascii s -> @nfkc ucd s = s.
Proof.
  intros Hs. cbn [nfkc ucd]. unfold UCD.nfkc.
  change (UCD.nfkd s) with (@nfkd ucd s). rewrite (@nfkd_ascii ucd ucd_laws s Hs).
  destruct Hs as [|c r Hc Hr]; [reflexivity|].
  cbn [UCD.compose]. rewrite (@ucd_ccc_ascii _ Hc). cbn [N.eqb].
  apply (@compose_run_ascii _ _ Hr).
Qed.

(** A text that is not empty and has no white space at its ends is its
    own display string. *)
Lemma coerce_trimmed (U : Unicode) s :
  s <> [] -> trimmed isspace s -> _coerce_to_string (PyStr s) = Some s.
Proof.
  intros Hs Ht. cbn [_coerce_to_string str]. rewrite (@trimmed_strip _ _ Ht).
  destruct s; [contradiction | reflexivity].
Qed.

(** C2, as amended: in a table with distinct labels, a column whose
    normalized name does not contain "id" is converted exactly when its
    dtype is object or string, it has at least one cleaned non-null
    display string, and every such string is numeric-like; if a single
    one is not, the column is returned as it was and its label is not in
    the report.  A result is returned whenever no cell is an integer
    beyond the range of floats.  Under any Unicode data whose NFKC
    leaves ASCII text as it is and whose white space among the ASCII
    characters is that of ASCII, the column ["$123", "no aplicar",
    "$456"] is returned as it was under any label that does not call for
    forced conversion. *)
Theorem all_or_nothing_gate
        (U : Unicode) (df : DataFrame) (c : pystr) (s : Series)
        (Hn : NoDup (Pandas.columns df)) (Hin : In (c, s) df)
        (Hf : force_numeric c = false) :
  (representable df ->
   exists df' report, convert_text_columns_to_numbers df = Ok (df', report))
  /\ (forall df' report,
         convert_text_columns_to_numbers df = Ok (df', report) ->
         (In c report
          <-> textual s = true
              /\ cleaned_non_null s <> []
              /\ forall text, In text (cleaned_non_null s) ->
                              is_numeric_like (PyStr text) = true)
         /\ ((exists text, In text (cleaned_non_null s)
                           /\ is_numeric_like (PyStr text) = false) ->
             Pandas.getitem df' c = Some s /\ ~ In c report)
         /\ (~ In c report -> Pandas.getitem df' c = Some s)
         /\ (In c report ->
             exists s', converted_series s = Ok s'
                        /\ Pandas.getitem df' c = Some s'))
  /\ ((forall text, Forall is_ascii text -> nfkc text = text) ->
      (forall ch, is_ascii ch -> isspace ch = ascii_isspace ch) ->
      forall label : pystr,
        force_numeric label = false ->
        convert_text_columns_to_numbers
          [(label, {| series_dtype := dtype_object;
                      series_values := mixed_cells |})]
        = Ok ([(label, {| series_dtype := dtype_object;
                          series_values := mixed_cells |})], [])).
Proof.
  assert (Hconv : forall df' report,
             convert_text_columns_to_numbers df = Ok (df', report) ->
             (In c report <-> converts c s = true)
             /\ exists s', convert_entry (c, s) = Ok (c, s')
                           /\ Pandas.getitem df' c = Some s').
  { intros df' report Hok.
    destruct (@convert_table_ok _ df df' report Hn Hok) as [Hm ->].
    split; [|exact (@mapM_entries_getitem _ df df' c s Hm Hn Hin)].
    rewrite in_report. split.
    - intros [s0 [Hin0 Ec]].
      assert (E : Some s0 = Some s)
        by (rewrite <- (@getitem_In df c s0 Hn Hin0);
            apply getitem_In; assumption).
      injection E as ->. exact Ec.
    - intros Ec. exists s. split; assumption. }
  assert (Hgate : converts c s = true
                  <-> textual s = true
                      /\ cleaned_non_null s <> []
                      /\ forall text, In text (cleaned_non_null s) ->
                                      is_numeric_like (PyStr text) = true).
  { unfold converts, all_numeric_like. rewrite Hf. cbn [orb].
    rewrite !andb_true_iff, negb_true_iff, forallb_forall. split.
    - intros [_ [[Ht He] Ha]]. split; [exact Ht|]. split; [|exact Ha].
      intros E. rewrite E in He. discriminate.
    - intros [Ht [He Ha]]. split.
      + unfold textual, Pandas.is_object_dtype, Pandas.is_string_dtype,
          Pandas.is_numeric_dtype in *.
        destruct (series_dtype s); (reflexivity || discriminate).
      + split; [split; [exact Ht|] | exact Ha].
        destruct (cleaned_non_null s); [contradiction | reflexivity]. }
  split; [|split].
  - intros Hr. rewrite (@convert_table_spec _ df Hn).
    destruct (@mapM_entries_fits _ df Hr) as [df' ->].
    eexists. eexists. reflexivity.
  - intros df' report Hok. destruct (Hconv df' report Hok) as [Hrep Hent].
    destruct Hent as [s' [He Hg]]. unfold convert_entry in He.
    cbn [fst snd] in He.
    split; [rewrite Hrep; exact Hgate|].
    assert (Hkeep : ~ In c report -> Pandas.getitem df' c = Some s).
    { intros Hc. destruct (converts c s) eqn:Ec.
      - exfalso. apply Hc, Hrep. reflexivity.
      - injection He as <-. exact Hg. }
    split; [|split; [exact Hkeep|]].
    + intros [text [Ht Hl]].
      assert (Hc : ~ In c report).
      { intros Hc. apply Hrep, Hgate in Hc. destruct Hc as [_ [_ Ha]].
        rewrite (Ha text Ht) in Hl. discriminate. }
      split; [apply Hkeep, Hc | exact Hc].
    + intros Hc. apply Hrep in Hc. rewrite Hc in He.
      destruct (converted_series s) as [t|]; [|discriminate].
      injection He as <-. exists t. split; [reflexivity | exact Hg].
  - intros Hnfkc Hsp label Hl.
    assert (Hcoerce : forall text,
               text <> [] -> forallb (fun c => (c <? 128)%N) text = true ->
               trimmed ascii_isspace text ->
               _coerce_to_string (PyStr text) = Some text).
    { intros text H0 Ha [H1 H2]. apply coerce_trimmed; [exact H0|].
      apply ascii_text in Ha. split.
      - destruct text as [|a t]; [exact I|].
        rewrite Hsp; [exact H1 | exact (Forall_inv Ha)].
      - pose proof (proj1 (Forall_forall _ _) Ha) as Hmem.
        destruct (rev text) as [|a t] eqn:Er; [exact I|].
        rewrite Hsp; [exact H2|]. apply Hmem, in_rev. rewrite Er. left.
        reflexivity. }
    assert (Ep : is_numeric_like (PyStr (py "no aplicar")) = false).
    { unfold is_numeric_like, _parse_numeric_text.
      rewrite Hcoerce by (discriminate || reflexivity || (split; reflexivity)).
      rewrite Hnfkc by (apply ascii_text; reflexivity).
      vm_compute. reflexivity. }
    assert (Eg : all_numeric_like {| series_dtype := dtype_object;
                                     series_values := mixed_cells |} = false).
    { apply all_numeric_like_false. exists (py "no aplicar").
      split; [|exact Ep]. unfold cleaned_non_null.
      apply in_flat_map. exists (PyStr (py "no aplicar")). split.
      - right. left. reflexivity.
      - rewrite Hcoerce by (discriminate || reflexivity || (split; reflexivity)).
        left. reflexivity. }
    unfold convert_text_columns_to_numbers.
    cbn [Pandas.columns map fst for_each].
    rewrite (@convert_column_spec U _ _ label _ (getitem_head _ _ _)).
    unfold converts. rewrite Hl, Eg, andb_false_r. reflexivity.
Qed.

Lemma all_or_nothing_gate_witness :
  (exists df' report,
      convert_text_columns_to_numbers [object_column "monto" mixed_cells]
      = Ok (df', report))
  /\ convert_text_columns_to_numbers [object_column "monto" mixed_cells]
     = Ok ([object_column "monto" mixed_cells], []).
Proof.
  assert (Hn : NoDup (Pandas.columns [object_column "monto" mixed_cells]))
    by (constructor; [intros [] | constructor]).
  assert (Hin : In (py "monto", snd (object_column "monto" mixed_cells))
                   [object_column "monto" mixed_cells])
    by (left; reflexivity).
  assert (Hf : force_numeric (py "monto") = false)
    by (vm_compute; reflexivity).
  split.
  - refine (proj1 (@all_or_nothing_gate
                     ucd _ (py "monto")
                     (snd (object_column "monto" mixed_cells)) Hn Hin Hf) _).
    repeat constructor.
  - refine (proj2 (proj2 (@all_or_nothing_gate
                            ucd _ (py "monto")
                            (snd (object_column "monto" mixed_cells))
                            Hn Hin Hf)) _ _ (py "monto") Hf).
    + exact ucd_nfkc_ascii.
    + exact (@isspace_ascii ucd ucd_laws).
Defined.

(** C2 as stated fails: every cleaned non-null display string of a column
    that holds only a missing value is numeric-like, there being none,
    and the column is not converted. *)
Lemma all_or_nothing_gate_empty_column :
  force_numeric (py "monto") = false
  /\ all_numeric_like (snd (object_column "monto" [PyNone])) = true
  /\ convert_text_columns_to_numbers [object_column "monto" [PyNone]]
     = Ok ([object_column "monto" [PyNone]], []).
Proof. repeat split; vm_compute; reflexivity. Qed.

(** A value that is text and does not parse converts to [pandas.NA]. *)
Lemma convert_unparseable (U : Unicode) v :
  is_text v = true -> is_numeric_like v = false ->
  convert_numeric_text v = Ok None.
Proof.
  unfold is_numeric_like.
  destruct v; try discriminate; intros _ H; cbn [convert_numeric_text];
    destruct (_parse_numeric_text _) as [[c|] n];
    (discriminate || reflexivity).
Qed.

(** C4, as amended: in a table with distinct labels, a column whose
    normalized name contains "id" and whose dtype is not already numeric
    is converted whatever it holds: its label is in the report and the
    result holds its numeric conversion, in which a cell that is text
    and does not parse is the missing value.  A result is returned
    whenever no cell is an integer beyond the range of floats.  The
    column "Operacion ID" of "000123", " 456 " and a missing value
    becomes 123.0, 456.0 and the missing value, and is reported. *)
Theorem forced_id_conversion
        (U : Unicode) (df : DataFrame) (c : pystr) (s : Series)
        (Hn : NoDup (Pandas.columns df)) (Hin : In (c, s) df)
        (Hf : force_numeric c = true)
        (Hd : Pandas.is_numeric_dtype s = false) :
  (representable df ->
   exists df' report, convert_text_columns_to_numbers df = Ok (df', report))
  /\ (forall df' report,
         convert_text_columns_to_numbers df = Ok (df', report) ->
         In c report
         /\ exists cells,
             mapM convert_numeric_text (series_values s) = Ok cells
             /\ Pandas.getitem df' c = Some (Pandas.to_numeric cells))
  /\ (forall v, is_text v = true -> is_numeric_like v = false ->
                convert_numeric_text v = Ok None)
  /\ Pandas.to_numeric [None]
     = {| series_dtype := dtype_numeric;
          series_values := [PyFloat Float.nan] |}
  /\ @convert_text_columns_to_numbers ucd
       [object_column "Operacion ID" id_cells]
     = Ok ([numeric_column "Operacion ID"
              [PyFloat (Float.of_decimal false 123 0);
               PyFloat (Float.of_decimal false 456 0);
               PyFloat Float.nan]],
           [py "Operacion ID"]).
Proof.
  assert (Ec : converts c s = true).
  { unfold converts. rewrite Hf, Hd. reflexivity. }
  split; [|split; [|split; [|split]]].
  - intros Hr. rewrite (@convert_table_spec _ df Hn).
    destruct (@mapM_entries_fits _ df Hr) as [df' ->].
    eexists. eexists. reflexivity.
  - intros df' report Hok.
    destruct (@convert_table_ok _ df df' report Hn Hok) as [Hm ->].
    split; [apply in_report; exists s; split; assumption|].
    destruct (@mapM_entries_getitem _ df df' c s Hm Hn Hin) as [s' [He Hg]].
    unfold convert_entry, converted_series in He. cbn [fst snd] in He.
    rewrite Ec in He.
    destruct (mapM convert_numeric_text (series_values s)) as [cells|];
      [|discriminate].
    cbn [bind] in He. injection He as <-. exists cells.
    split; [reflexivity | exact Hg].
  - intros v. apply convert_unparseable.
  - reflexivity.
  - vm_compute. reflexivity.
Qed.

Lemma forced_id_conversion_witness :
  exists df' report,
    convert_text_columns_to_numbers [object_column "Operacion ID" id_cells]
    = Ok (df', report).
Proof.
  assert (Hn : NoDup (Pandas.columns [object_column "Operacion ID" id_cells]))
    by (constructor; [intros [] | constructor]).
  refine (proj1 (@forced_id_conversion
                   ucd _ (py "Operacion ID")
                   (snd (object_column "Operacion ID" id_cells))
                   Hn _ _ _) _).
  - left. reflexivity.
  - vm_compute. reflexivity.
  - reflexivity.
  - repeat constructor.
Defined.

(** C4 as stated fails: a column named "id" that is already numeric is
    skipped before its name is looked at; it is not converted and not
    reported. *)
Lemma forced_id_conversion_numeric_column :
  force_numeric (py "id") = true
  /\ convert_text_columns_to_numbers
       [numeric_column "id" [PyFloat (Float.of_decimal false 1 0)]]
     = Ok ([numeric_column "id" [PyFloat (Float.of_decimal false 1 0)]], []).
Proof. split; vm_compute; reflexivity. Qed.

(** ** [convert_numeric_text] *)

(** What [convert_numeric_text] returns for each kind of value. *)
Lemma convert_numeric_text_cases (U : Unicode) v :
  match v with
  | PyNone => convert_numeric_text v = Ok None
  | PyFloat f =>
    convert_numeric_text v = Ok (if Float.isnan f then None else Some f)
  | PyInt z =>
    convert_numeric_text v
    = match Float.of_int z with
      | Ok f => Ok (Some f)
      | Raise e => Raise e
      end
  | _ =>
    match _parse_numeric_text v with
    | (None, _) => convert_numeric_text v = Ok None
    | (Some cleaned, is_negative) =>
      exists x, Float.of_str cleaned = Some x
                /\ convert_numeric_text v
                   = Ok (Some (if is_negative then Float.neg x else x))
    end
  end.
Proof.
  assert (Hp : forall w cleaned neg,
             _parse_numeric_text w = (Some cleaned, neg) ->
             exists x, Float.of_str cleaned = Some x).
  { intros w cleaned neg. unfold _parse_numeric_text.
    destruct (_coerce_to_string w); [|discriminate].
    destruct (detect_sign _) as [cl n].
    destruct (Float.of_str _) as [x|] eqn:E; [|discriminate].
    intros H. injection H as <- _. exists x. exact E. }
  destruct v as [|b|z|f|s|t]; cbn [convert_numeric_text].
  - reflexivity.
  - destruct (_parse_numeric_text (PyBool b)) as [[cl|] n] eqn:E;
      [|reflexivity].
    destruct (Hp _ _ _ E) as [x Hx]. exists x. rewrite Hx. split; reflexivity.
  - destruct (Float.of_int z); reflexivity.
  - destruct (Float.isnan f); reflexivity.
  - destruct (_parse_numeric_text (PyStr s)) as [[cl|] n] eqn:E;
      [|reflexivity].
    destruct (Hp _ _ _ E) as [x Hx]. exists x. rewrite Hx. split; reflexivity.
  - destruct (_parse_numeric_text (PyObject t)) as [[cl|] n] eqn:E;
      [|reflexivity].
    destruct (Hp _ _ _ E) as [x Hx]. exists x. rewrite Hx. split; reflexivity.
Qed.

(** C5 fails on the code: [convert_numeric_text] raises for an integer
    beyond the range of floats, here ten to the power 400, because
    [float(text_value)] is called outside the [try]. *)
Theorem convert_numeric_text_overflow (U : Unicode) :
  convert_numeric_text (PyInt (10 ^ 400)) = Raise OverflowError.
Proof. vm_compute. reflexivity. Qed.
